(** * The Gemini mandala service: server/services/gemini.ts

    A shallow embedding of [GeminiService] and the properties proved of it.
    Strings are sequences of UTF-16 code units, 32-bit integer arithmetic is
    written out on [Z], fractional numbers are IEEE doubles ([float]), and the
    effects of the service (closure state, remote calls, waits, files) are
    threaded through a state-and-exception monad. *)

From Stdlib Require Import ZArith NArith List String Ascii Bool Lia Floats Uint63 DecimalString.
From stdpp Require Import base list.
Import ListNotations.
Local Open Scope Z_scope.

(** ** JavaScript strings *)

(** A string is its sequence of UTF-16 code units; [length] is [.length]. *)
Definition jsstring : Type := list N.

(** A literal of the source, given by its characters. The source's literals are
    ASCII and none holds a backquote, so a backquote written here stands for the
    double quote (code unit 34) of the source. *)
Definition codeUnit (a : ascii) : N :=
  let n := N_of_ascii a in if (n =? 96)%N then 34%N else n.

Definition js (s : string) : jsstring := map codeUnit (list_ascii_of_string s).

(** JavaScript truthiness of an optional string: present and not empty. *)
Definition truthy (s : option jsstring) : bool :=
  match s with
  | Some (_ :: _) => true
  | _ => false
  end.

(** [s.startsWith(pat)] at the head of [s]; used by [includes]. *)
Fixpoint startsWith (pat s : jsstring) : bool :=
  match pat, s with
  | [], _ => true
  | _ :: _, [] => false
  | p :: pat', c :: s' => if (p =? c)%N then startsWith pat' s' else false
  end.

(** [s.includes(pat)]: [pat] occurs in [s] at some position. *)
Fixpoint includes (s pat : jsstring) : bool :=
  if startsWith pat s then true
  else
    match s with
    | [] => false
    | _ :: s' => includes s' pat
    end.

(** Number-to-string conversion of an integer-valued number: its decimal
    digits, with a minus sign when negative (exact below 10^21). *)
Definition intToString (z : Z) : jsstring :=
  js (NilZero.string_of_int (Z.to_int z)).

(** What [toLowerCase] does to a code unit of the Basic Latin block. *)
Definition lowerUnit (c : N) : N :=
  if ((65 <=? c) && (c <=? 90))%N then (c + 32)%N else c.

Definition isAscii (c : N) : bool := (c <? 128)%N.

(** ** Regular expressions: the fragment the source uses *)

Inductive regex : Type :=
  | Chars (w : jsstring)          (* a literal word *)
  | Alt (r1 r2 : regex)           (* r1|r2 *)
  | Cat (r1 r2 : regex)           (* r1r2 *)
  | WordBoundary.                 (* \b *)

(** [\w] without the unicode and ignore-case flags: [A-Za-z0-9_]. *)
Definition isWordChar (c : N) : bool :=
  ((48 <=? c) && (c <=? 57) || (65 <=? c) && (c <=? 90) || (c =? 95) ||
   (97 <=? c) && (c <=? 122))%N.

(** [\b] holds between the code unit before the position ([prev], none at the
    start) and the one after it (none at the end) when exactly one of the two
    is a word character. *)
Definition atWordBoundary (prev : option N) (rest : jsstring) : bool :=
  xorb (match prev with Some c => isWordChar c | None => false end)
       (match rest with c :: _ => isWordChar c | [] => false end).

Fixpoint matchChars (w : jsstring) (prev : option N) (rest : jsstring)
  : option (option N * jsstring) :=
  match w with
  | [] => Some (prev, rest)
  | c :: w' =>
      match rest with
      | d :: rest' => if (c =? d)%N then matchChars w' (Some d) rest' else None
      | [] => None
      end
  end.

(** Backtracking match of [r] at one position, with the continuation [k] for
    what follows. *)
Fixpoint matchAt (r : regex) (prev : option N) (rest : jsstring)
  (k : option N -> jsstring -> bool) : bool :=
  match r with
  | Chars w =>
      match matchChars w prev rest with
      | Some (p, s) => k p s
      | None => false
      end
  | Alt r1 r2 => matchAt r1 prev rest k || matchAt r2 prev rest k
  | Cat r1 r2 => matchAt r1 prev rest (fun p s => matchAt r2 p s k)
  | WordBoundary => atWordBoundary prev rest && k prev rest
  end.

Fixpoint searchFrom (r : regex) (prev : option N) (s : jsstring) : bool :=
  matchAt r prev s (fun _ _ => true) ||
  match s with
  | [] => false
  | c :: s' => searchFrom r (Some c) s'
  end.

(** [r.test(s)] for a regex without the global or sticky flag. *)
Definition RegExp_test (r : regex) (s : jsstring) : bool := searchFrom r None s.

(** [(w|w1|...|wn)] *)
Fixpoint alternation (w : jsstring) (ws : list jsstring) : regex :=
  match ws with
  | [] => Chars w
  | w' :: ws' => Alt (Chars w) (alternation w' ws')
  end.

(** [/\b(w|w1|...|wn)\b/] *)
Definition wordRegex (w : jsstring) (ws : list jsstring) : regex :=
  Cat WordBoundary (Cat (alternation w ws) WordBoundary).

(** ** Numbers *)

(** ToInt32: the value modulo 2^32, read as a signed 32-bit integer. *)
Definition toInt32 (z : Z) : Z := (z + 2 ^ 31) mod 2 ^ 32 - 2 ^ 31.

(** [a << n] *)
Definition shl32 (a n : Z) : Z := toInt32 (Z.shiftl (toInt32 a) n).

(** [a & b] *)
Definition and32 (a b : Z) : Z := toInt32 (Z.land (toInt32 a) (toInt32 b)).

(** The double that an integer denotes (exact below 2^53 in absolute value). *)
Definition float_of_Z (z : Z) : float :=
  if z <? 0 then PrimFloat.opp (PrimFloat.of_uint63 (Uint63.of_Z (- z)))
  else PrimFloat.of_uint63 (Uint63.of_Z z).

(** [Math.PI] *)
Definition Math_PI : float := 0x1.921fb54442d18p+1%float.

(** [for (let i = start; ...; i++) body], run for [count] iterations from
    [i]: what the body does to the string it appends to. *)
Fixpoint forLoop (count : nat) (i : Z) (body : Z -> jsstring -> jsstring)
  (acc : jsstring) : jsstring :=
  match count with
  | O => acc
  | S count' => forLoop count' (i + 1) body (body i acc)
  end.

(** ** Data model *)

(** Modelled from the spec: [BrainwaveData] is declared in @shared/schema, which
    is not among the sources; the spec gives its three fields as integers in
    0..100, and the service declares each of them a number. *)
Record BrainwaveData : Type := {
  attention : Z;
  meditation : Z;
  signalQuality : Z
}.

Inductive Style : Type := traditional | modern | abstract | spiritual.

Inductive ColorPalette : Type := warm | cool | vibrant | monochrome.

(** [voiceTranscript] is declared a string; the service guards against an
    absent one, which is [None] here. *)
Record MandalaGenerationOptions : Type := {
  voiceTranscript : option jsstring;
  brainwaveData : BrainwaveData;
  style : option Style;
  colorPalette : option ColorPalette
}.

Record GeneratedMandala : Type := {
  imageUrl : jsstring;
  prompt : jsstring;
  revisedPrompt : option jsstring
}.

Inductive MandalaStyle : Type := dotpainting | geometric | floral | sacred.

Record Themes : Type := {
  peace : bool;
  love : bool;
  strength : bool;
  growth : bool;
  gratitude : bool
}.

Record Colors : Type := {
  center : jsstring;
  outer : jsstring;
  dots : jsstring;
  accent : jsstring;
  secondary : jsstring;
  tertiary : jsstring;
  gradient : list jsstring
}.

Definition styleName (s : Style) : jsstring :=
  match s with
  | traditional => js "traditional"
  | modern => js "modern"
  | abstract => js "abstract"
  | spiritual => js "spiritual"
  end.

Definition colorPaletteName (c : ColorPalette) : jsstring :=
  match c with
  | warm => js "warm"
  | cool => js "cool"
  | vibrant => js "vibrant"
  | monochrome => js "monochrome"
  end.

(** ** The remote service's requests and responses *)

Definition Error : Type := jsstring.

Inductive RequestConfig : Type :=
  | NoConfig
  | JsonPrompt (systemInstruction : jsstring)   (* application/json, required string field prompt *)
  | TextAndImage.                               (* responseModalities TEXT and IMAGE *)

Record Request : Type := {
  model : jsstring;
  config : RequestConfig;
  contents : jsstring
}.

Record InlineData : Type := { data : option jsstring }.

Record Part : Type := {
  text : option jsstring;
  inlineData : option InlineData
}.

Record Content : Type := { parts : option (list Part) }.

Record Candidate : Type := { content : option Content }.

Record Response : Type := {
  responseText : option jsstring;               (* response.text *)
  candidates : option (list Candidate)
}.

(** ** Effects *)

(** The state the service acts on. [heap] holds the variable [currentSeed]
    captured by each closure that [createSeededRandom] has made, and a closure
    is the index of its cell. Console output is not modelled. *)
Record World : Type := {
  heap : list Z;
  requests : nat;                      (* calls made to the remote service *)
  slept : Z;                           (* milliseconds waited in setTimeout *)
  dirs : list jsstring;                (* directories that exist *)
  files : list (jsstring * jsstring)   (* files written: path, base64 payload *)
}.

Definition Closure : Type := nat.

Inductive Completion (A : Type) : Type :=
  | Returned (a : A)
  | Thrown (e : Error).
Arguments Returned {A} a.
Arguments Thrown {A} e.

Definition M (A : Type) : Type := World -> Completion A * World.

Definition ret {A : Type} (a : A) : M A := fun w => (Returned a, w).

Definition throw {A : Type} (e : Error) : M A := fun w => (Thrown e, w).

Definition bind {A B : Type} (m : M A) (f : A -> M B) : M B :=
  fun w =>
    match m w with
    | (Returned a, w') => f a w'
    | (Thrown e, w') => (Thrown e, w')
    end.

(** [try { m } catch (error) { handler error }] *)
Definition tryCatch {A : Type} (m : M A) (handler : Error -> M A) : M A :=
  fun w =>
    match m w with
    | (Returned a, w') => (Returned a, w')
    | (Thrown e, w') => handler e w'
    end.

Notation "x <- m ;; k" := (bind m (fun x => k))
  (at level 100, m at next level, right associativity).

Definition setHeap (h : list Z) (w : World) : World :=
  {| heap := h; requests := requests w; slept := slept w; dirs := dirs w;
     files := files w |}.

(** [await new Promise(resolve => setTimeout(resolve, ms))] *)
Definition sleep (ms : Z) : M unit :=
  fun w =>
    (Returned tt,
     {| heap := heap w; requests := requests w; slept := slept w + ms;
        dirs := dirs w; files := files w |}).

Definition existsSync (dir : jsstring) : M bool :=
  fun w => (Returned (bool_decide (dir ∈ dirs w)), w).

(** ** A sample environment

    The theorems below hold for every built-in and collaborator. These
    stand-ins serve to instantiate them: Basic Latin lowering, a remote
    service that rejects every request, a clock that follows the waits, and a
    file system without faults. *)

Definition asciiLowerCase (s : jsstring) : jsstring := map lowerUnit s.

Definition sampleFloatToString (x : float) : jsstring := js "0".

Definition sampleCos (x : float) : float := 1%float.

Definition sampleSin (x : float) : float := 0%float.

Definition sampleBase64 (s : jsstring) : jsstring := s.

Definition sampleParsePrompt (t : jsstring) : Error + option jsstring :=
  inr None.

Definition serviceUnavailable (w : World) (req : Request) : Error + Response :=
  inl (js "503 Service Unavailable").

Definition sampleClock (w : World) : Z := 1700000000000 + slept w.

Definition sampleCwd : jsstring := js "/app".

Definition samplePathResolve (segments : list jsstring) : jsstring :=
  match segments with
  | [] => []
  | first :: rest => first ++ concat (map (fun s => js "/" ++ s) rest)
  end.

Definition samplePathDirname (path : jsstring) : jsstring :=
  js "/app/attached_assets".

Definition noFault (w : World) (path : jsstring) : option Error := None.

Definition emptyWorld : World :=
  {| heap := []; requests := 0; slept := 0; dirs := []; files := [] |}.

Definition sampleBrainwaveData : BrainwaveData :=
  {| attention := 75; meditation := 20; signalQuality := 40 |}.

Definition sampleOptions : MandalaGenerationOptions :=
  {| voiceTranscript := Some (js "I feel calm and grateful");
     brainwaveData := sampleBrainwaveData;
     style := None; colorPalette := Some warm |}.

(** A text generator that answers, with a parser that finds the prompt. *)
Definition promptService (w : World) (req : Request) : Error + Response :=
  inr {| responseText := Some (js "{`prompt`: `a quiet mandala of dots`}");
         candidates := None |}.

Definition samplePromptField (t : jsstring) : Error + option jsstring :=
  inr (Some (js "a quiet mandala of dots")).

(** An image generator that answers with a text part and an image part, and
    one that rejects the first request only. *)
Definition imageResponse : Response :=
  {| responseText := None;
     candidates :=
       Some [{| content :=
                  Some {| parts :=
                            Some [{| text := Some (js "A mandala of dots");
                                     inlineData := None |};
                                  {| text := None;
                                     inlineData :=
                                       Some {| data := Some (js "iVBORw0KGgo=") |} |}] |} |}] |}.

Definition imageService (w : World) (req : Request) : Error + Response :=
  inr imageResponse.

Definition flakyImageService (w : World) (req : Request) : Error + Response :=
  if (requests w =? 0)%nat then inl (js "429 Too Many Requests")
  else inr imageResponse.

(** ** The service *)

Section GeminiService.

Local Set Default Proof Using "Type".

(** *** Built-ins and collaborators the service calls

    They are not code of the service: each is a parameter. What the outside
    world answers may depend on everything that has happened so far, so the
    collaborators read the [World]. *)

(** [String.prototype.toLowerCase]; on Basic Latin text it lowers A-Z and
    leaves every other code unit. *)
Variable toLowerCase : jsstring -> jsstring.
Hypothesis toLowerCase_ascii :
  forall s : jsstring, forallb isAscii s = true -> toLowerCase s = map lowerUnit s.

(** Number-to-string conversion of a double. *)
Variable floatToString : float -> jsstring.
Variable Math_cos : float -> float.
Variable Math_sin : float -> float.
(** [Buffer.from(s).toString('base64')] *)
Variable Buffer_base64 : jsstring -> jsstring.
(** [JSON.parse(t).prompt]: the string under the key prompt, if any; an error
    when [JSON.parse] or the property access throws. *)
Variable JSON_parse_prompt : jsstring -> Error + option jsstring.
(** [ai.models.generateContent]: a response or a rejection. *)
Variable generateContent : World -> Request -> Error + Response.
Variable Date_now : World -> Z.
Variable process_cwd : jsstring.
Variable path_resolve : list jsstring -> jsstring.
Variable path_dirname : jsstring -> jsstring.
(** Whether [fs.mkdirSync] and [fs.writeFileSync] throw. *)
Variable mkdirSync_error : World -> jsstring -> option Error.
Variable writeFileSync_error : World -> jsstring -> option Error.

Definition callGenerateContent (req : Request) : M Response :=
  fun w =>
    let w' := {| heap := heap w; requests := S (requests w); slept := slept w;
                 dirs := dirs w; files := files w |} in
    match generateContent w req with
    | inr response => (Returned response, w')
    | inl e => (Thrown e, w')
    end.

Definition now : M Z := fun w => (Returned (Date_now w), w).

Definition mkdirSync (dir : jsstring) : M unit :=
  fun w =>
    match mkdirSync_error w dir with
    | Some e => (Thrown e, w)
    | None =>
        (Returned tt,
         {| heap := heap w; requests := requests w; slept := slept w;
            dirs := dir :: dirs w; files := files w |})
    end.

Definition writeFileSync (path payload : jsstring) : M unit :=
  fun w =>
    match writeFileSync_error w path with
    | Some e => (Thrown e, w)
    | None =>
        (Returned tt,
         {| heap := heap w; requests := requests w; slept := slept w;
            dirs := dirs w; files := (path, payload) :: files w |})
    end.

(** *** healthCheck (lines 35-46) *)

Definition healthCheck : M bool :=
  tryCatch
    (response <- callGenerateContent
       {| model := js "gemini-2.5-flash"; config := NoConfig;
          contents := js "Hello, respond with just 'OK'" |} ;;
     ret (truthy (responseText response)))
    (fun error => ret false).

(** *** extractThemesFromVoice (lines 363-383) *)

Definition peaceRegex : regex :=
  wordRegex (js "peace")
    [js "calm"; js "serene"; js "tranquil"; js "quiet"; js "still"; js "harmony"; js "balance"].

Definition loveRegex : regex :=
  wordRegex (js "love")
    [js "heart"; js "compassion"; js "kindness"; js "care"; js "affection"; js "warmth"].

Definition strengthRegex : regex :=
  wordRegex (js "strength")
    [js "strong"; js "power"; js "courage"; js "confident"; js "brave"; js "determined"].

Definition growthRegex : regex :=
  wordRegex (js "grow")
    [js "change"; js "transform"; js "evolve"; js "progress"; js "develop"; js "journey"; js "path"].

Definition gratitudeRegex : regex :=
  wordRegex (js "grateful")
    [js "thank"; js "appreciation"; js "blessed"; js "fortunate"; js "abundance"].

Definition extractThemesFromVoice (voiceTranscript : option jsstring) : Themes :=
  match voiceTranscript with
  | Some (c :: t) =>
      let lower := toLowerCase (c :: t) in
      {| peace := RegExp_test peaceRegex lower;
         love := RegExp_test loveRegex lower;
         strength := RegExp_test strengthRegex lower;
         growth := RegExp_test growthRegex lower;
         gratitude := RegExp_test gratitudeRegex lower |}
  | _ =>
      {| peace := false; love := false; strength := false; growth := false;
         gratitude := false |}
  end.

(** *** getFallbackPrompt (lines 286-360) *)

Definition colorPalettes (c : ColorPalette) : jsstring :=
  match c with
  | warm => js "warm sunset palette: deep oranges (#ff8c00), rich reds (#dc143c), golden yellows (#ffd700), and bronze dots (#cd7f32) against a deep amber background (#ff8c00 to #8b4513 gradient)"
  | cool => js "cool celestial palette: deep midnight blues (#191970), purples (#663399), teals (#008b8b), and silver-white dots (#f5f5dc) against a cosmic blue background (#000080 to #191970 gradient)"
  | vibrant => js "vibrant cosmic palette: electric blues (#0066ff), luminous whites (#ffffff), light blues (#87ceeb), turquoise accents (#40e0d0), and gold highlights (#ffd700) against a deep space blue background (#000051 to #1a237e gradient)"
  | monochrome => js "sophisticated monochrome palette: pure whites (#ffffff), light grays (#d3d3d3), medium grays (#808080), and charcoal (#36454f) against a deep black background (#000000 to #1c1c1c gradient)"
  end.

Definition styleEnhancements (s : Style) : jsstring :=
  match s with
  | traditional => js "with classical mandala elements, traditional Buddhist and Hindu symbolism, and time-honored sacred geometry"
  | modern => js "with contemporary geometric interpretations, sleek minimalist elements, and innovative pattern combinations"
  | abstract => js "with experimental dot arrangements, unconventional symmetries, and artistic expression that breaks traditional boundaries"
  | spiritual => js "with deep sacred symbolism, chakra representations, and mystical elements that connect to universal consciousness"
  end.

Definition peaceSentence : jsstring := js "Incorporate symbols of inner peace: dove motifs, olive branches, and gentle wave patterns flowing through the dot work. ".
Definition loveSentence : jsstring := js "Include heart-centered symbolism: lotus flowers blooming from the center, infinity symbols, and radiating rays of compassion. ".
Definition strengthSentence : jsstring := js "Add symbols of inner strength: mountain-like triangular patterns, shield formations, and bold radiating lines of empowerment. ".
Definition growthSentence : jsstring := js "Express transformation: spiral patterns, tree-like branching formations, and evolving geometric patterns that grow in complexity. ".
Definition gratitudeSentence : jsstring := js "Embody gratitude: sun-like radiating patterns, flowering motifs, and warm embracing circles that express appreciation. ".

Definition getFallbackPrompt (options : MandalaGenerationOptions) : jsstring :=
  let voiceTranscript := voiceTranscript options in
  let brainwaveData := brainwaveData options in
  let style := style options in
  let colorPalette := colorPalette options in
  let themes := extractThemesFromVoice voiceTranscript in
  let prompt := js "Create an exquisite traditional dot painting mandala masterpiece with concentric circles of luminous dots in varying sizes. " in
  let prompt :=
    if attention brainwaveData >? 70 then prompt ++ js "Ultra-precise geometric dot patterns with crystalline clarity, sharp angular formations, and highly detailed symmetrical structures. Each dot perfectly placed for maximum focus and concentration energy. "
    else if attention brainwaveData <? 30 then prompt ++ js "Soft, organic dot patterns with flowing transitions, gentle curves, and dreamy ethereal formations. Dots create flowing energy like water or clouds. "
    else prompt ++ js "Balanced dot patterns with harmonious geometric structures, moderate complexity, and stable radial symmetry. Perfect equilibrium between order and flow. " in
  let prompt :=
    if meditation brainwaveData >? 70 then prompt ++ js "Deep, peaceful dot gradients creating waves of tranquility, with gentle spirals and calming circular patterns that radiate serene energy from the center outward. "
    else if meditation brainwaveData <? 30 then prompt ++ js "Dynamic, energetic dot work with vibrant spiral patterns, active radiating lines, and pulsing geometric forms that express vitality and movement. "
    else prompt ++ js "Centered, grounded dot patterns with stable circular formations and balanced energy distribution throughout the design. " in
  let prompt :=
    prompt ++ (js "Color scheme: " ++ (colorPalettes (default vibrant colorPalette)) ++ js ". ") in
  let prompt :=
    match voiceTranscript with
    | Some t =>
        if truthy voiceTranscript && (5 <? length t)%nat then
          let lowerTranscript := toLowerCase t in
          let prompt :=
            if peace themes || includes lowerTranscript (js "peace")
               || includes lowerTranscript (js "calm")
            then prompt ++ peaceSentence else prompt in
          let prompt :=
            if love themes || includes lowerTranscript (js "love")
               || includes lowerTranscript (js "heart")
            then prompt ++ loveSentence else prompt in
          let prompt :=
            if strength themes || includes lowerTranscript (js "strength")
               || includes lowerTranscript (js "power")
            then prompt ++ strengthSentence else prompt in
          let prompt :=
            if growth themes || includes lowerTranscript (js "growth")
               || includes lowerTranscript (js "change")
            then prompt ++ growthSentence else prompt in
          let prompt :=
            if gratitude themes || includes lowerTranscript (js "grateful")
               || includes lowerTranscript (js "thank")
            then prompt ++ gratitudeSentence else prompt in
          prompt
        else prompt
    | None => prompt
    end in
  let prompt :=
    prompt ++ (js "Design aesthetic: " ++ (styleEnhancements (default spiritual style)) ++ js ". ") in
  let prompt := prompt ++ js "Multiple layers of intricate dot work radiating from a powerful center motif outward through concentric rings of increasing complexity. " in
  let prompt := prompt ++ js "Perfect circular composition with museum-quality artistic detail, spiritual depth, and breathtaking beauty that inspires meditation and inner reflection. " in
  let prompt := prompt ++ js "Each dot placed with intention to create optical harmony and luminous effects that seem to glow with inner light." in
  prompt.

(** *** generateMandalaPrompt (lines 48-136) *)

Definition systemPrompt : jsstring := (js "You are an AI that creates detailed mandala generation prompts by analyzing brain wave data and voice transcripts. 

Create mandala prompts that reflect the beautiful traditional dot painting style with:
- Intricate concentric circles made of small dots in various sizes
- Deep blue background with radiating dotted patterns  
- Lotus-like flower patterns with detailed petal work
- Sacred geometric patterns using dot work technique
- White and light blue dots creating luminous effects against dark blue
- Multiple layers of circular patterns from center outward
- Traditional spiritual symbolism expressed through dot art

Your task is to create a beautiful, spiritually meaningful mandala prompt that reflects:
1. The person's mental state based on their brain waves
2. The emotional content and themes from their voice transcript
3. Traditional dot painting mandala style with intricate geometric patterns

Always respond in English regardless of the input language, as the image generation requires English prompts.").

Definition userPrompt (options : MandalaGenerationOptions) : jsstring :=
  let voiceTranscript := voiceTranscript options in
  let brainwaveData := brainwaveData options in
  let style := default spiritual (style options) in
  let colorPalette := default vibrant (colorPalette options) in
  (js "Please create a mandala generation prompt based on this data:

Voice Transcript: `" ++ (match voiceTranscript with Some t => t | None => js "undefined" end) ++ js "`

Brain Wave Data:
- Attention Level: " ++ (intToString (attention brainwaveData)) ++ js "% (0-100, higher = more focused)
- Meditation Level: " ++ (intToString (meditation brainwaveData)) ++ js "% (0-100, higher = more relaxed/meditative)
- Signal Quality: " ++ (intToString (signalQuality brainwaveData)) ++ js "% (connection quality)

Style Preference: " ++ (styleName style) ++ js "
Color Palette: " ++ (colorPaletteName colorPalette) ++ js "

Guidelines:
- High attention (>70%) = sharp, precise dot patterns, focused geometric energy
- High meditation (>70%) = flowing, soft dot gradients, peaceful circular patterns
- Balanced levels = harmonious, symmetrical dot work designs
- Low signal quality should be noted but not prevent generation

Extract emotional themes, spiritual concepts, and energy patterns from the voice transcript.
Incorporate traditional dot painting mandala elements:
- Concentric circles of dots in various sizes
- Sacred lotus patterns with dotted petals  
- Deep blue base with luminous white/light blue dots
- Radiating geometric patterns from center outward
- Multiple layers of intricate dot work
- Traditional spiritual symbolism expressed through dot art technique

Always create prompts in English for image generation compatibility, regardless of input language.

Respond with JSON: { `prompt`: `detailed traditional dot painting mandala generation prompt in English` }").

(** The body of the try block: one request to the remote text generator. *)
Definition promptAttempt (options : MandalaGenerationOptions) : M jsstring :=
  response <- callGenerateContent
    {| model := js "gemini-2.5-pro"; config := JsonPrompt systemPrompt;
       contents := userPrompt options |} ;;
  result <- (fun w =>
    match JSON_parse_prompt
            (if truthy (responseText response)
             then default [] (responseText response) else js "{}") with
    | inr result => (Returned result, w)
    | inl e => (Thrown e, w)
    end) ;;
  ret (if truthy result then default [] result else getFallbackPrompt options).

(** The loop over [attempt], from the attempts that remain. *)
Fixpoint promptAttempts (attempts : list Z) (options : MandalaGenerationOptions)
  : M jsstring :=
  match attempts with
  | [] => ret (getFallbackPrompt options)
  | attempt :: rest =>
      tryCatch (promptAttempt options)
        (fun error =>
           _ <- (if attempt <? 3 then sleep (2 ^ attempt * 1000) else ret tt) ;;
           promptAttempts rest options)
  end.

Definition generateMandalaPrompt (options : MandalaGenerationOptions) : M jsstring :=
  promptAttempts [1; 2; 3] options.

(** *** createSeedFromInput (lines 447-456) *)

Definition createSeedFromInput (prompt : jsstring)
  (brainwaveData : option BrainwaveData) : Z :=
  let hash := 0 in
  let str :=
    prompt ++
    match brainwaveData with
    | Some b =>
        intToString (attention b) ++ intToString (meditation b)
        ++ intToString (signalQuality b)
    | None => []
    end in
  let hash :=
    fold_left
      (fun hash c =>
         let char := Z.of_N c in
         let hash := (shl32 hash 5 - hash) + char in
         let hash := and32 hash hash in
         hash)
      str hash in
  Z.abs hash.

(** *** createSeededRandom (lines 458-464) *)

(** The seed is an integer and stays below 2^53 / 9301 for every seed
    [createSeedFromInput] returns, where the arithmetic of doubles is exact;
    [%] is the remainder that takes its sign from the dividend. *)
Definition createSeededRandom (seed : Z) : M Closure :=
  fun w => (Returned (length (heap w)), setHeap (heap w ++ [seed]) w).

(** A call of the function that [createSeededRandom] returned. *)
Definition callSeededRandom (f : Closure) : M float :=
  fun w =>
    match heap w !! f with
    | Some currentSeed =>
        let currentSeed := Z.rem (currentSeed * 9301 + 49297) 233280 in
        (Returned (float_of_Z currentSeed / 233280)%float,
         setHeap (<[f := currentSeed]> (heap w)) w)
    | None => (Thrown (js "not a function"), w)
    end.

(** *** determineMandalaStyle (lines 466-474) *)

Definition determineMandalaStyle (prompt : jsstring) : MandalaStyle :=
  let lowerPrompt := toLowerCase prompt in
  if includes lowerPrompt (js "dot") || includes lowerPrompt (js "aboriginal")
  then dotpainting
  else if includes lowerPrompt (js "geometric") || includes lowerPrompt (js "sacred")
  then sacred
  else if includes lowerPrompt (js "flower") || includes lowerPrompt (js "petal")
  then floral
  else geometric.

(** *** extractColorsFromPrompt (lines 476-507) *)

Definition extractColorsFromPrompt (prompt : jsstring) : Colors :=
  let lowerPrompt := toLowerCase prompt in
  let colors :=
    {| center := js "#ffffff";
       outer := js "#1a237e";
       dots := js "#e3f2fd";
       accent := js "#3949ab";
       secondary := js "#26c6da";
       tertiary := js "#42a5f5";
       gradient := [js "#e3f2fd"; js "#bbdefb"; js "#90caf9"; js "#64b5f6";
                    js "#42a5f5"; js "#2196f3"; js "#1976d2"; js "#1565c0"] |} in
  let colors :=
    if includes lowerPrompt (js "vibrant") || includes lowerPrompt (js "bright")
    then
      {| center := js "#ffffff";
         outer := js "#9c27b0";
         dots := js "#e91e63";
         accent := js "#ff9800";
         secondary := js "#4caf50";
         tertiary := js "#2196f3";
         gradient := [js "#e91e63"; js "#9c27b0"; js "#673ab7"; js "#3f51b5";
                      js "#2196f3"; js "#00bcd4"; js "#009688"; js "#4caf50";
                      js "#8bc34a"; js "#cddc39"; js "#ffeb3b"; js "#ffc107";
                      js "#ff9800"] |}
    else colors in
  colors.

(** *** The layer generators (lines 509-616) *)

Definition addColorVariation (colors : Colors) (seededRandom : Closure) : M Colors :=
  ret colors.

Definition generateGradients (colors : Colors) (style : MandalaStyle)
  (seededRandom : option Closure) : M jsstring :=
  ret ((js "
      <radialGradient id=`bgGradient` cx=`50%` cy=`50%` r=`50%`>
        <stop offset=`0%` style=`stop-color:" ++ (center colors) ++ js ";stop-opacity:1` />
        <stop offset=`100%` style=`stop-color:" ++ (outer colors) ++ js ";stop-opacity:1` />
      </radialGradient>
    ")).

Definition generatePatterns (colors : Colors) (seededRandom : option Closure)
  : M jsstring :=
  ret ((js "
      <pattern id=`dots` patternUnits=`userSpaceOnUse` width=`8` height=`8`>
        <circle cx=`4` cy=`4` r=`1.5` fill=`" ++ (dots colors) ++ js "` opacity=`0.7`/>
      </pattern>
    ")).

Definition generateFilters : M jsstring :=
  ret ((js "
      <filter id=`glow` x=`-50%` y=`-50%` width=`200%` height=`200%`>
        <feGaussianBlur stdDeviation=`3` result=`coloredBlur`/>
        <feMerge> 
          <feMergeNode in=`coloredBlur`/>
          <feMergeNode in=`SourceGraphic`/>
        </feMerge>
      </filter>
    ")).

Definition generateOuterRing (colors : Colors) (style : MandalaStyle)
  (seededRandom : option Closure) : M jsstring :=
  let ring := [] in
  let petalCount := 12 in
  let ring :=
    forLoop (Z.to_nat petalCount) 0
      (fun i ring =>
         let angle := (360 / float_of_Z petalCount * float_of_Z i)%float in
         ring ++ (js "
        <g transform=`rotate(" ++ (floatToString angle) ++ js ")`>
          <circle cx=`0` cy=`-180` r=`8` fill=`" ++ (accent colors) ++ js "` opacity=`0.8`/>
          <circle cx=`0` cy=`-160` r=`4` fill=`" ++ (dots colors) ++ js "` opacity=`0.9`/>
        </g>
      "))
      ring in
  ret ring.

Definition generateMiddleRings (colors : Colors) (style : MandalaStyle)
  (seededRandom : option Closure) : M jsstring :=
  ret ((js "
      <circle r=`120` fill=`none` stroke=`" ++ (accent colors) ++ js "` stroke-width=`2` opacity=`0.6`/>
      <circle r=`80` fill=`none` stroke=`" ++ (secondary colors) ++ js "` stroke-width=`1` opacity=`0.7`/>
    ")).

Definition generateInnerPatterns (colors : Colors) (style : MandalaStyle)
  (seededRandom : option Closure) : M jsstring :=
  ret ((js "
      <circle r=`60` fill=`none` stroke=`" ++ (tertiary colors) ++ js "` stroke-width=`2` opacity=`0.8`/>
      <circle r=`40` fill=`none` stroke=`" ++ (dots colors) ++ js "` stroke-width=`1` opacity=`0.9`/>
    ")).

Definition generateDetailedPetals (colors : Colors) (style : MandalaStyle)
  (seededRandom : option Closure) : M jsstring :=
  let petals := [] in
  let count := 8 in
  let petals :=
    forLoop (Z.to_nat count) 0
      (fun i petals =>
         let angle := (360 / float_of_Z count * float_of_Z i)%float in
         petals ++ (js "
        <g transform=`rotate(" ++ (floatToString angle) ++ js ")`>
          <circle cx=`0` cy=`-50` r=`6` fill=`" ++ (accent colors) ++ js "` opacity=`0.7`/>
        </g>
      "))
      petals in
  ret petals.

Definition generateSacredGeometry (colors : Colors) (style : MandalaStyle)
  (seededRandom : option Closure) : M jsstring :=
  ret ((js "
      <circle r=`30` fill=`none` stroke=`" ++ (dots colors) ++ js "` stroke-width=`1` opacity=`0.5`/>
    ")).

(** [Math.floor(radius / 2)] of an integer radius is its floor division by 2. *)
Definition generateDotPatterns (colors : Colors) (style : MandalaStyle)
  (seededRandom : option Closure) : M jsstring :=
  let dots_ := [] in
  let rings := [20; 35; 50] in
  let dots_ :=
    fold_left
      (fun dots_ radius =>
         let dotCount := radius / 2 in
         forLoop (Z.to_nat dotCount) 0
           (fun i dots_ =>
              let angle := (360 / float_of_Z dotCount * float_of_Z i)%float in
              let x := (Math_cos (angle * Math_PI / 180) * float_of_Z radius)%float in
              let y := (Math_sin (angle * Math_PI / 180) * float_of_Z radius)%float in
              dots_ ++ (js "<circle cx=`" ++ (floatToString x) ++ js "` cy=`" ++ (floatToString y) ++ js "` r=`2` fill=`" ++ (dots colors) ++ js "` opacity=`0.8`/>"))
           dots_)
      rings dots_ in
  ret dots_.

Definition generateCenterMotif (colors : Colors) (style : MandalaStyle)
  (seededRandom : option Closure) : M jsstring :=
  ret ((js "
      <circle r=`15` fill=`" ++ (center colors) ++ js "` opacity=`0.9`/>
      <circle r=`10` fill=`" ++ (accent colors) ++ js "` opacity=`0.8`/>
      <circle r=`5` fill=`" ++ (dots colors) ++ js "` opacity=`1`/>
    ")).

(** *** createSVGMandala (lines 397-444) *)

Definition createSVGMandala (prompt : jsstring)
  (brainwaveData : option BrainwaveData) : M jsstring :=
  let seed := createSeedFromInput prompt brainwaveData in
  seededRandom <- createSeededRandom seed ;;
  let colors := extractColorsFromPrompt prompt in
  let mandalaStyle := determineMandalaStyle prompt in
  variantColors <- addColorVariation colors seededRandom ;;
  gradients <- generateGradients variantColors mandalaStyle (Some seededRandom) ;;
  patterns <- generatePatterns variantColors (Some seededRandom) ;;
  filters <- generateFilters ;;
  outerRing <- generateOuterRing variantColors mandalaStyle (Some seededRandom) ;;
  middleRings <- generateMiddleRings variantColors mandalaStyle (Some seededRandom) ;;
  innerPatterns <- generateInnerPatterns variantColors mandalaStyle (Some seededRandom) ;;
  detailedPetals <- generateDetailedPetals variantColors mandalaStyle (Some seededRandom) ;;
  sacredGeometry <- generateSacredGeometry variantColors mandalaStyle (Some seededRandom) ;;
  dotPatterns <- generateDotPatterns variantColors mandalaStyle (Some seededRandom) ;;
  centerMotif <- generateCenterMotif variantColors mandalaStyle (Some seededRandom) ;;
  outerRing2 <- generateOuterRing variantColors mandalaStyle (Some seededRandom) ;;
  detailedPetals2 <- generateDetailedPetals variantColors mandalaStyle (Some seededRandom) ;;
  ret ((js "
      <svg width=`512` height=`512` viewBox=`0 0 512 512` xmlns=`http://www.w3.org/2000/svg`>
        <defs>
          " ++ (gradients) ++ js "
          " ++ (patterns) ++ js "
          " ++ (filters) ++ js "
        </defs>
        
        <!-- Enhanced Background -->
        <rect width=`512` height=`512` fill=`url(#bgGradient)`/>
        
        <!-- Multiple sophisticated mandala layers with more complexity -->
        <g transform=`translate(256,256)`>
          " ++ (outerRing) ++ js "
          " ++ (middleRings) ++ js "
          " ++ (innerPatterns) ++ js "
          " ++ (detailedPetals) ++ js "
          " ++ (sacredGeometry) ++ js "
          " ++ (dotPatterns) ++ js "
          " ++ (centerMotif) ++ js "
          
          <!-- Additional enhancement layers -->
          <g opacity=`0.7`>
            " ++ (outerRing2) ++ js "
          </g>
          <g opacity=`0.5` transform=`rotate(45)`>
            " ++ (detailedPetals2) ++ js "
          </g>
        </g>
        
        <!-- Luminous overlay effects -->
        <circle cx=`256` cy=`256` r=`250` fill=`none` stroke=`" ++ (dots variantColors) ++ js "` stroke-width=`1` opacity=`0.3`/>
        <circle cx=`256` cy=`256` r=`200` fill=`none` stroke=`" ++ (accent variantColors) ++ js "` stroke-width=`0.5` opacity=`0.5`/>
      </svg>
    ")).

(** *** generateFallbackMandala (lines 385-395) *)

Definition generateFallbackMandala (prompt : jsstring)
  (brainwaveData : option BrainwaveData) : M GeneratedMandala :=
  svgMandala <- createSVGMandala prompt brainwaveData ;;
  let dataUrl := (js "data:image/svg+xml;base64," ++ (Buffer_base64 svgMandala)) in
  ret {| imageUrl := dataUrl;
         prompt := prompt;
         revisedPrompt := Some ((js "Fallback mandala generated locally with unique variations: " ++ (prompt))) |}.

(** *** generateMandalaImage (lines 138-284) *)

(** Lines 140-177: the style modifiers, the complexity level and the colour
    intensity, in this order. *)
Definition styleDescriptors (brainwaveData : option BrainwaveData)
  : jsstring * jsstring * jsstring :=
  let styleModifiers := [] in
  match brainwaveData with
  | Some b =>
      let '(complexityLevel, styleModifiers) :=
        if attention b >? 70 then (js "highly intricate and precisely detailed with sharp geometric precision", styleModifiers ++ js "focused energy patterns with crystalline clarity, ")
        else if attention b <? 30 then (js "flowing and organic with soft, dreamy details", styleModifiers ++ js "gentle, flowing energy with soft focus, ")
        else (js "balanced complexity with harmonious details", styleModifiers ++ js "centered and stable energy patterns, ") in
      let '(colorIntensity, styleModifiers) :=
        if meditation b >? 70 then (js "deep, calming colors with gentle gradients and peaceful luminescence", styleModifiers ++ js "serene and tranquil atmosphere with smooth color transitions, ")
        else if meditation b <? 30 then (js "vibrant, dynamic colors with energetic contrasts and bright highlights", styleModifiers ++ js "active and energetic atmosphere with bold color contrasts, ")
        else (js "balanced color palette with moderate intensity and natural harmony", styleModifiers ++ js "harmonious and balanced energy, ") in
      let styleModifiers :=
        if signalQuality b <? 50 then styleModifiers ++ js "with subtle ethereal effects and mystical atmosphere, "
        else styleModifiers in
      (styleModifiers, complexityLevel, colorIntensity)
  | None =>
      (js "balanced energy and harmonious design, ", js "intricate and detailed", js "vibrant and luminous colors")
  end.

(** Lines 179-208. *)
Definition enhancedPromptOf (prompt : jsstring)
  (brainwaveData : option BrainwaveData) : jsstring :=
  let '(styleModifiers, complexityLevel, colorIntensity) :=
    styleDescriptors brainwaveData in
  (js "Create an exquisite traditional dot painting mandala masterpiece: " ++ (prompt) ++ js ". 
    
    MANDALA STRUCTURE:
    - Perfectly circular and symmetrical design with " ++ (complexityLevel) ++ js "
    - Multiple concentric rings of dots in varying sizes (from tiny pinpoints to larger accent dots)
    - Sacred geometric patterns including lotus petals, triangular formations, and spiral motifs
    - Traditional Aboriginal-inspired dot work technique with modern spiritual symbolism
    
    COLOR PALETTE & ATMOSPHERE:
    - " ++ (colorIntensity) ++ js "
    - Deep celestial blue background (#1a237e to #000051 gradient)
    - Luminous white and light blue dots (#ffffff, #e3f2fd, #bbdefb) creating stellar effects
    - Accent colors: gold (#ffd700), turquoise (#40e0d0), and lavender (#e6e6fa)
    - " ++ (styleModifiers) ++ js "
    
    ARTISTIC DETAILS:
    - Center: Sacred symbol or flower motif with radiating energy
    - Inner rings: Detailed lotus petals with intricate dot patterns
    - Middle rings: Geometric patterns, mandalic squares, and triangular formations
    - Outer rings: Protective circles with guardian symbols and flowing energy
    - Edge: Subtle starburst effects and cosmic energy radiations
    
    TECHNIQUE:
    - Traditional pointillism technique with varying dot densities
    - Dots should create optical mixing and luminous effects
    - Perfect symmetry across all axes
    - Professional spiritual artwork quality
    - Fills entire circular canvas with balanced composition
    
    The final result should be a breathtakingly beautiful, spiritually uplifting mandala that reflects the user's mental and emotional state through color, pattern, and energy flow. High resolution, museum-quality artistic rendering.").

(** The loop over [content.parts] (lines 246-256), from the parts that remain;
    the state is [(imageGenerated, revisedPrompt)]. *)
Fixpoint processParts (imagePath : jsstring) (ps : list Part)
  (st : bool * jsstring) : M (bool * jsstring) :=
  match ps with
  | [] => ret st
  | part :: rest =>
      let '(imageGenerated, revisedPrompt) := st in
      if truthy (text part) then
        processParts imagePath rest (imageGenerated, default [] (text part))
      else
        match inlineData part with
        | Some d =>
            if truthy (data d) then
              _ <- writeFileSync imagePath (default [] (data d)) ;;
              processParts imagePath rest (true, revisedPrompt)
            else processParts imagePath rest st
        | None => processParts imagePath rest st
        end
  end.

(** The body of the try block (lines 213-268). *)
Definition imageAttempt (enhancedPrompt : jsstring) : M GeneratedMandala :=
  timestamp <- now ;;
  let filename := (js "mandala_" ++ (intToString timestamp) ++ js ".png") in
  let imagePath := path_resolve [process_cwd; js "attached_assets"; filename] in
  let dir := path_dirname imagePath in
  dirExists <- existsSync dir ;;
  _ <- (if negb dirExists then mkdirSync dir else ret tt) ;;
  response <- callGenerateContent
    {| model := js "gemini-2.0-flash-preview-image-generation";
       config := TextAndImage; contents := enhancedPrompt |} ;;
  match candidates response with
  | Some (candidate :: _) =>
      match content candidate with
      | Some {| parts := Some ps |} =>
          st <- processParts imagePath ps (false, []) ;;
          let '(imageGenerated, revisedPrompt) := st in
          if imageGenerated then
            let relativeImagePath := (js "/attached_assets/" ++ (filename)) in
            ret {| imageUrl := relativeImagePath;
                   prompt := enhancedPrompt;
                   revisedPrompt :=
                     Some (if truthy (Some revisedPrompt) then revisedPrompt
                           else (js "Gemini generated mandala: " ++ (enhancedPrompt))) |}
          else throw (js "No image data received from Gemini")
      | _ => throw (js "No content parts in Gemini response")
      end
  | _ => throw (js "No image generated from Gemini")
  end.

(** The loop over [attempt], from the attempts that remain. *)
Fixpoint imageAttempts (attempts : list Z) (enhancedPrompt prompt : jsstring)
  (brainwaveData : option BrainwaveData) : M GeneratedMandala :=
  match attempts with
  | [] => generateFallbackMandala prompt brainwaveData
  | attempt :: rest =>
      tryCatch (imageAttempt enhancedPrompt)
        (fun error =>
           _ <- (if attempt <? 2 then sleep 2000 else ret tt) ;;
           imageAttempts rest enhancedPrompt prompt brainwaveData)
  end.

Definition generateMandalaImage (prompt : jsstring)
  (brainwaveData : option BrainwaveData) : M GeneratedMandala :=
  let enhancedPrompt := enhancedPromptOf prompt brainwaveData in
  imageAttempts [1; 2] enhancedPrompt prompt brainwaveData.

(** ** Reference definitions for the statements below *)

(** [pat] occurs in [s]. *)
Definition contains (s pat : jsstring) : Prop :=
  exists pre post : jsstring, s = pre ++ pat ++ post.

(** The code unit before a position: the last one of the text read so far, or
    [prev] when nothing has been read. *)
Definition lastUnit (prev : option N) (read : jsstring) : option N :=
  match last read with
  | Some c => Some c
  | None => prev
  end.

(** One of the words [ws] stands in [s] as a whole word: with a word boundary
    before it and one after it. *)
Definition wholeWordOccurs (ws : list jsstring) (s : jsstring) : Prop :=
  exists (pre w post : jsstring),
    s = pre ++ w ++ post /\ w ∈ ws
    /\ atWordBoundary (lastUnit None pre) (w ++ post) = true
    /\ atWordBoundary (lastUnit None (pre ++ w)) post = true.

Definition peaceWords : list jsstring :=
  [js "peace"; js "calm"; js "serene"; js "tranquil"; js "quiet"; js "still";
   js "harmony"; js "balance"].

Definition loveWords : list jsstring :=
  [js "love"; js "heart"; js "compassion"; js "kindness"; js "care";
   js "affection"; js "warmth"].

Definition strengthWords : list jsstring :=
  [js "strength"; js "strong"; js "power"; js "courage"; js "confident";
   js "brave"; js "determined"].

Definition growthWords : list jsstring :=
  [js "grow"; js "change"; js "transform"; js "evolve"; js "progress";
   js "develop"; js "journey"; js "path"].

Definition gratitudeWords : list jsstring :=
  [js "grateful"; js "thank"; js "appreciation"; js "blessed"; js "fortunate";
   js "abundance"].

(** The digits that the seed's input string takes from the biometric sample. *)
Definition biometricDigits (biometrics : option BrainwaveData) : jsstring :=
  match biometrics with
  | Some b =>
      intToString (attention b) ++ intToString (meditation b)
      ++ intToString (signalQuality b)
  | None => []
  end.

(** The seed as the design states it: [h := h * 31 + charCode], truncated to a
    signed 32-bit integer at every code unit, and the absolute value at the
    end. *)
Definition deriveSeed (text : jsstring) (biometrics : option BrainwaveData) : Z :=
  Z.abs (fold_left (fun h c => toInt32 (h * 31 + Z.of_N c))
           (text ++ biometricDigits biometrics) 0).

(** The recurrence of the generator, and its state after [n] steps. *)
Definition lcgNext (s : Z) : Z := (s * 9301 + 49297) mod 233280.

Fixpoint lcgState (seed : Z) (n : nat) : Z :=
  match n with
  | O => seed
  | S n' => lcgNext (lcgState seed n')
  end.

(** The [k]-th draw of a generator made from [seed] ([k] from 1). *)
Definition lcgDraw (seed : Z) (k : nat) : float :=
  (float_of_Z (lcgState seed k) / 233280)%float.

Definition inUnitInterval (d : float) : bool :=
  PrimFloat.leb 0 d && PrimFloat.ltb d 1.

(** [p] holds of [count] successive integers from [s]. *)
Fixpoint allFrom (count : nat) (s : Z) (p : Z -> bool) : bool :=
  match count with
  | O => true
  | S count' => p s && allFrom count' (s + 1) p
  end.

(** A client of [createSeededRandom]: [n] successive calls of the closure [f]. *)
Fixpoint draws (f : Closure) (n : nat) : M (list float) :=
  match n with
  | O => ret []
  | S n' =>
      d <- callSeededRandom f ;;
      ds <- draws f n' ;;
      ret (d :: ds)
  end.

(** A client that makes two generators from one seed and draws [n] numbers
    from the first, then [n] from the second. *)
Definition twoGenerators (seed : Z) (n : nat) : M (list float * list float) :=
  g1 <- createSeededRandom seed ;;
  g2 <- createSeededRandom seed ;;
  d1 <- draws g1 n ;;
  d2 <- draws g2 n ;;
  ret (d1, d2).

(** The three results of [styleDescriptors], by name. *)
Definition styleModifiersOf (b : option BrainwaveData) : jsstring :=
  fst (fst (styleDescriptors b)).

Definition complexityLevelOf (b : option BrainwaveData) : jsstring :=
  snd (fst (styleDescriptors b)).

Definition colorIntensityOf (b : option BrainwaveData) : jsstring :=
  snd (styleDescriptors b).

(** The sample [b] with its signal quality replaced. *)
Definition withSignalQuality (b : BrainwaveData) (q : Z) : BrainwaveData :=
  {| attention := attention b; meditation := meditation b; signalQuality := q |}.

(** The five sentences that the theme block of [getFallbackPrompt] can add. *)
Definition themeSentences : list jsstring :=
  [peaceSentence; loveSentence; strengthSentence; growthSentence;
   gratitudeSentence].

(** The fallback prompt without its theme block, from the outcomes of the four
    comparisons: what lines 293-321 and 352-357 build. *)
Definition promptSkeleton (attentionHigh attentionLow meditationHigh
  meditationLow : bool) (style : option Style)
  (colorPalette : option ColorPalette) : jsstring :=
  let prompt := js "Create an exquisite traditional dot painting mandala masterpiece with concentric circles of luminous dots in varying sizes. " in
  let prompt :=
    if attentionHigh then prompt ++ js "Ultra-precise geometric dot patterns with crystalline clarity, sharp angular formations, and highly detailed symmetrical structures. Each dot perfectly placed for maximum focus and concentration energy. "
    else if attentionLow then prompt ++ js "Soft, organic dot patterns with flowing transitions, gentle curves, and dreamy ethereal formations. Dots create flowing energy like water or clouds. "
    else prompt ++ js "Balanced dot patterns with harmonious geometric structures, moderate complexity, and stable radial symmetry. Perfect equilibrium between order and flow. " in
  let prompt :=
    if meditationHigh then prompt ++ js "Deep, peaceful dot gradients creating waves of tranquility, with gentle spirals and calming circular patterns that radiate serene energy from the center outward. "
    else if meditationLow then prompt ++ js "Dynamic, energetic dot work with vibrant spiral patterns, active radiating lines, and pulsing geometric forms that express vitality and movement. "
    else prompt ++ js "Centered, grounded dot patterns with stable circular formations and balanced energy distribution throughout the design. " in
  let prompt :=
    prompt ++ (js "Color scheme: " ++ (colorPalettes (default vibrant colorPalette)) ++ js ". ") in
  let prompt :=
    prompt ++ (js "Design aesthetic: " ++ (styleEnhancements (default spiritual style)) ++ js ". ") in
  let prompt := prompt ++ js "Multiple layers of intricate dot work radiating from a powerful center motif outward through concentric rings of increasing complexity. " in
  let prompt := prompt ++ js "Perfect circular composition with museum-quality artistic detail, spiritual depth, and breathtaking beauty that inspires meditation and inner reflection. " in
  let prompt := prompt ++ js "Each dot placed with intention to create optical harmony and luminous effects that seem to glow with inner light." in
  prompt.

Definition promptWithoutThemes (b : BrainwaveData) (style : option Style)
  (colorPalette : option ColorPalette) : jsstring :=
  promptSkeleton (attention b >? 70) (attention b <? 30) (meditation b >? 70)
    (meditation b <? 30) style colorPalette.

Definition allStyles : list (option Style) :=
  [None; Some traditional; Some modern; Some abstract; Some spiritual].

Definition allColorPalettes : list (option ColorPalette) :=
  [None; Some warm; Some cool; Some vibrant; Some monochrome].

(** The integers 0, 1, ..., n-1. *)
Definition upTo (n : nat) : list Z := map Z.of_nat (seq 0 n).

(** The angles of [count] motifs spaced by 360/count degrees: (360/count) * i
    for i = 0, ..., count-1, in the arithmetic of doubles. *)
Definition ringAngles (count : Z) : list float :=
  map (fun i => (360 / float_of_Z count * float_of_Z i)%float)
    (upTo (Z.to_nat count)).

(** One motif of the outer ring (lines 548-553). *)
Definition outerRingMotif (colors : Colors) (angle : float) : jsstring :=
  (js "
        <g transform=`rotate(" ++ (floatToString angle) ++ js ")`>
          <circle cx=`0` cy=`-180` r=`8` fill=`" ++ (accent colors) ++ js "` opacity=`0.8`/>
          <circle cx=`0` cy=`-160` r=`4` fill=`" ++ (dots colors) ++ js "` opacity=`0.9`/>
        </g>
      ").

(** One motif of the detailed petals (lines 577-581). *)
Definition petalMotif (colors : Colors) (angle : float) : jsstring :=
  (js "
        <g transform=`rotate(" ++ (floatToString angle) ++ js ")`>
          <circle cx=`0` cy=`-50` r=`6` fill=`" ++ (accent colors) ++ js "` opacity=`0.7`/>
        </g>
      ").

(** The position of a dot: the point at [angle] degrees on the circle of
    radius [radius]. *)
Definition dotPosition (radius : Z) (angle : float) : float * float :=
  ((Math_cos (angle * Math_PI / 180) * float_of_Z radius)%float,
   (Math_sin (angle * Math_PI / 180) * float_of_Z radius)%float).

(** One dot of the dot field (line 603). *)
Definition dotAt (colors : Colors) (radius : Z) (angle : float) : jsstring :=
  let '(x, y) := dotPosition radius angle in
  (js "<circle cx=`" ++ (floatToString x) ++ js "` cy=`" ++ (floatToString y) ++ js "` r=`2` fill=`" ++ (dots colors) ++ js "` opacity=`0.8`/>").

(** The differences of neighbouring elements. *)
Fixpoint steps (angles : list float) : list float :=
  match angles with
  | a :: (b :: _) as rest => (b - a)%float :: steps rest
  | _ => []
  end.

(** A layer is pure when its markup is a function of the colours alone and it
    leaves the world as it found it, so that it has made no call of the
    generator it was passed. *)
Definition pureLayer
  (layer : Colors -> MandalaStyle -> option Closure -> M jsstring) : Prop :=
  forall colors : Colors, exists markup : jsstring,
    forall (style : MandalaStyle) (seededRandom : option Closure) (w : World),
      layer colors style seededRandom w = (Returned markup, w).

(** Two invocations of the composer, one after the other. *)
Definition composeTwice (prompt : jsstring) (b : option BrainwaveData)
  : M (jsstring * jsstring) :=
  first <- createSVGMandala prompt b ;;
  second <- createSVGMandala prompt b ;;
  ret (first, second).

Definition fallbackTwice (prompt : jsstring) (b : option BrainwaveData)
  : M (GeneratedMandala * GeneratedMandala) :=
  first <- generateFallbackMandala prompt b ;;
  second <- generateFallbackMandala prompt b ;;
  ret (first, second).

(** The world after a wait. *)
Definition afterSleep (ms : Z) (w : World) : World := snd (sleep ms w).

(** The parts of the fallback prompt: what precedes the theme block (lines
    293-321), the theme block (lines 324-342) and what follows it (lines
    352-357). *)
Definition promptHeadOf (attentionHigh attentionLow meditationHigh
  meditationLow : bool) (colorPalette : option ColorPalette) : jsstring :=
  js "Create an exquisite traditional dot painting mandala masterpiece with concentric circles of luminous dots in varying sizes. "
  ++ (if attentionHigh then js "Ultra-precise geometric dot patterns with crystalline clarity, sharp angular formations, and highly detailed symmetrical structures. Each dot perfectly placed for maximum focus and concentration energy. "
      else if attentionLow then js "Soft, organic dot patterns with flowing transitions, gentle curves, and dreamy ethereal formations. Dots create flowing energy like water or clouds. "
      else js "Balanced dot patterns with harmonious geometric structures, moderate complexity, and stable radial symmetry. Perfect equilibrium between order and flow. ")
  ++ (if meditationHigh then js "Deep, peaceful dot gradients creating waves of tranquility, with gentle spirals and calming circular patterns that radiate serene energy from the center outward. "
      else if meditationLow then js "Dynamic, energetic dot work with vibrant spiral patterns, active radiating lines, and pulsing geometric forms that express vitality and movement. "
      else js "Centered, grounded dot patterns with stable circular formations and balanced energy distribution throughout the design. ")
  ++ (js "Color scheme: " ++ (colorPalettes (default vibrant colorPalette)) ++ js ". ").

Definition promptHead (b : BrainwaveData) (colorPalette : option ColorPalette)
  : jsstring :=
  promptHeadOf (attention b >? 70) (attention b <? 30) (meditation b >? 70)
    (meditation b <? 30) colorPalette.

(** Whether the head of the fallback prompt names the vibrant palette or takes
    the sentence for a low meditation level. *)
Definition vividHead (meditationHigh meditationLow : bool)
  (colorPalette : option ColorPalette) : bool :=
  (negb meditationHigh && meditationLow)
  || match colorPalette with
     | None | Some vibrant => true
     | _ => false
     end.

Definition themeBlock (voiceTranscript : option jsstring) : jsstring :=
  match voiceTranscript with
  | Some t =>
      if (5 <? length t)%nat then
        let themes := extractThemesFromVoice voiceTranscript in
        let lowerTranscript := toLowerCase t in
        (if peace themes || includes lowerTranscript (js "peace")
            || includes lowerTranscript (js "calm")
         then peaceSentence else [])
        ++ (if love themes || includes lowerTranscript (js "love")
               || includes lowerTranscript (js "heart")
            then loveSentence else [])
        ++ (if strength themes || includes lowerTranscript (js "strength")
               || includes lowerTranscript (js "power")
            then strengthSentence else [])
        ++ (if growth themes || includes lowerTranscript (js "growth")
               || includes lowerTranscript (js "change")
            then growthSentence else [])
        ++ (if gratitude themes || includes lowerTranscript (js "grateful")
               || includes lowerTranscript (js "thank")
            then gratitudeSentence else [])
      else []
  | None => []
  end.

Definition promptTail (style : option Style) : jsstring :=
  (js "Design aesthetic: " ++ (styleEnhancements (default spiritual style)) ++ js ". ")
  ++ js "Multiple layers of intricate dot work radiating from a powerful center motif outward through concentric rings of increasing complexity. "
  ++ js "Perfect circular composition with museum-quality artistic detail, spiritual depth, and breathtaking beauty that inspires meditation and inner reflection. "
  ++ js "Each dot placed with intention to create optical harmony and luminous effects that seem to glow with inner light.".

(** The palette that [extractColorsFromPrompt] starts from, and the one it
    takes for a vibrant or bright prompt. *)
Definition defaultColors : Colors :=
  {| center := js "#ffffff";
     outer := js "#1a237e";
     dots := js "#e3f2fd";
     accent := js "#3949ab";
     secondary := js "#26c6da";
     tertiary := js "#42a5f5";
     gradient := [js "#e3f2fd"; js "#bbdefb"; js "#90caf9"; js "#64b5f6";
                  js "#42a5f5"; js "#2196f3"; js "#1976d2"; js "#1565c0"] |}.

Definition vividColors : Colors :=
  {| center := js "#ffffff";
     outer := js "#9c27b0";
     dots := js "#e91e63";
     accent := js "#ff9800";
     secondary := js "#4caf50";
     tertiary := js "#2196f3";
     gradient := [js "#e91e63"; js "#9c27b0"; js "#673ab7"; js "#3f51b5";
                  js "#2196f3"; js "#00bcd4"; js "#009688"; js "#4caf50";
                  js "#8bc34a"; js "#cddc39"; js "#ffeb3b"; js "#ffc107";
                  js "#ff9800"] |}.

(** The dots of the dot field in drawing order: the radius and the angle of
    each. *)
Definition dotFieldPlan : list (Z * float) :=
  concat (map (fun radius => map (pair radius) (ringAngles (radius / 2)))
            [20; 35; 50]).

(** The world after one more request to the remote service. *)
Definition afterRequest (w : World) : World :=
  {| heap := heap w; requests := S (requests w); slept := slept w;
     dirs := dirs w; files := files w |}.

(** The path under which an image attempt started in [w] saves its image. *)
Definition imagePathAt (w : World) : jsstring :=
  path_resolve
    [process_cwd; js "attached_assets";
     js "mandala_" ++ intToString (Date_now w) ++ js ".png"].

(** What the rest of an image attempt that started in [w] has done when it
    ends in [r], counted from the world [w1] in which the rest began: it has
    left closures, waits and directories alone, made at most one request,
    added files under the image path only, and, if it returns an artifact,
    made the request and written a file. *)
Definition attemptOutcome (ep : jsstring) (w w1 : World)
  (r : Completion GeneratedMandala * World) : Prop :=
  heap (snd r) = heap w1 /\ slept (snd r) = slept w1
  /\ (requests (snd r) = requests w1 \/ requests (snd r) = S (requests w1))
  /\ dirs (snd r) = dirs w1
  /\ exists new : list (jsstring * jsstring),
       files (snd r) = new ++ files w1
       /\ Forall (fun f => fst f = imagePathAt w) new
       /\ forall m : GeneratedMandala,
            fst r = Returned m ->
            imageUrl m
            = js "/attached_assets/" ++ js "mandala_"
              ++ intToString (Date_now w) ++ js ".png"
            /\ prompt m = ep
            /\ truthy (revisedPrompt m) = true
            /\ requests (snd r) = S (requests w1)
            /\ new <> [].

(** A part that makes the loop over the parts write nothing: it carries text,
    or it carries no image data. *)
Definition imagelessPart (part : Part) : bool :=
  truthy (text part)
  || match inlineData part with
     | Some d => negb (truthy (data d))
     | None => true
     end.

(** A response from which an image attempt gets no image: no candidate, or a
    first candidate without content or parts, or with imageless parts only. *)
Definition imagelessResponse (response : Response) : bool :=
  match candidates response with
  | Some (candidate :: _) =>
      match content candidate with
      | Some {| parts := Some ps |} => forallb imagelessPart ps
      | _ => true
      end
  | _ => true
  end.

(** ** Properties *)

(** *** The monad of effects *)

Lemma tryCatch_thrown {A : Type} (m : M A) (handler : Error -> M A)
  (w w1 : World) (e : Error) :
  m w = (Thrown e, w1) -> tryCatch m handler w = handler e w1.
Proof. intros H. unfold tryCatch. now rewrite H. Qed.

Lemma tryCatch_returned {A : Type} (m : M A) (handler : Error -> M A)
  (w w1 : World) (a : A) :
  m w = (Returned a, w1) -> tryCatch m handler w = (Returned a, w1).
Proof. intros H. unfold tryCatch. now rewrite H. Qed.

Lemma bind_sleep {A : Type} (ms : Z) (k : unit -> M A) (w : World) :
  bind (sleep ms) k w = k tt (afterSleep ms w).
Proof. reflexivity. Qed.

Lemma bind_ret {A B : Type} (a : A) (k : A -> M B) (w : World) :
  bind (ret a) k w = k a w.
Proof. reflexivity. Qed.

Lemma bind_writeFileSync {A : Type} (path payload : jsstring)
  (k : unit -> M A) (w : World) :
  bind (writeFileSync path payload) k w
  = match writeFileSync_error w path with
    | Some e => (Thrown e, w)
    | None =>
        k tt {| heap := heap w; requests := requests w; slept := slept w;
                dirs := dirs w; files := (path, payload) :: files w |}
    end.
Proof.
  unfold bind, writeFileSync. now destruct (writeFileSync_error w path).
Qed.

Lemma bind_mkdirSync {A : Type} (dir : jsstring) (k : unit -> M A) (w : World) :
  bind (mkdirSync dir) k w
  = match mkdirSync_error w dir with
    | Some e => (Thrown e, w)
    | None =>
        k tt {| heap := heap w; requests := requests w; slept := slept w;
                dirs := dir :: dirs w; files := files w |}
    end.
Proof.
  unfold bind, mkdirSync. now destruct (mkdirSync_error w dir).
Qed.

Lemma bind_callGenerateContent {A : Type} (req : Request)
  (k : Response -> M A) (w : World) :
  bind (callGenerateContent req) k w
  = match generateContent w req with
    | inr response => k response (afterRequest w)
    | inl e => (Thrown e, afterRequest w)
    end.
Proof.
  unfold bind, callGenerateContent, afterRequest.
  now destruct (generateContent w req).
Qed.

Lemma bind_now {A : Type} (k : Z -> M A) (w : World) :
  bind now k w = k (Date_now w) w.
Proof. reflexivity. Qed.

Lemma bind_existsSync {A : Type} (dir : jsstring) (k : bool -> M A) (w : World) :
  bind (existsSync dir) k w = k (bool_decide (dir ∈ dirs w)) w.
Proof. reflexivity. Qed.

(** *** 32-bit arithmetic *)

Lemma toInt32_mod (z : Z) : toInt32 z mod 2 ^ 32 = z mod 2 ^ 32.
Proof.
  unfold toInt32.
  rewrite Zminus_mod, Zmod_mod, <- Zminus_mod.
  f_equal. lia.
Qed.

Lemma toInt32_congr (a b : Z) :
  a mod 2 ^ 32 = b mod 2 ^ 32 -> toInt32 a = toInt32 b.
Proof.
  intros H. unfold toInt32. f_equal.
  rewrite <- (Z.add_mod_idemp_l a), <- (Z.add_mod_idemp_l b) by lia.
  now rewrite H.
Qed.

Lemma toInt32_range (z : Z) : - 2 ^ 31 <= toInt32 z < 2 ^ 31.
Proof.
  unfold toInt32.
  pose proof (Z.mod_pos_bound (z + 2 ^ 31) (2 ^ 32)). lia.
Qed.

(** The update of the source, a shift, a subtraction, an addition and a
    conversion to 32 bits, is the multiplication by 31 truncated to 32 bits. *)
Lemma hash_step (h : Z) (c : N) :
  and32 (shl32 h 5 - h + Z.of_N c) (shl32 h 5 - h + Z.of_N c)
  = toInt32 (h * 31 + Z.of_N c).
Proof.
  unfold and32. rewrite Z.land_diag.
  apply toInt32_congr. rewrite toInt32_mod.
  unfold shl32. rewrite Z.shiftl_mul_pow2 by lia.
  rewrite <- Z.add_mod_idemp_l, <- Zminus_mod_idemp_l, toInt32_mod by lia.
  rewrite <- Z.mul_mod_idemp_l, toInt32_mod, Z.mul_mod_idemp_l by lia.
  rewrite Zminus_mod_idemp_l, Z.add_mod_idemp_l by lia.
  f_equal. lia.
Qed.

Lemma fold_left_pointwise {A B : Type} (f g : A -> B -> A) (l : list B) :
  (forall a b, f a b = g a b) -> forall a, fold_left f l a = fold_left g l a.
Proof.
  intros H. induction l as [|b l IH]; intros a; cbn [fold_left].
  - reflexivity.
  - rewrite H. apply IH.
Qed.

Lemma hash_fold (str : jsstring) (h : Z) :
  fold_left
    (fun hash c =>
       let char := Z.of_N c in
       let hash := (shl32 hash 5 - hash) + char in
       let hash := and32 hash hash in
       hash) str h
  = fold_left (fun h c => toInt32 (h * 31 + Z.of_N c)) str h.
Proof.
  apply fold_left_pointwise. intros a b. exact (hash_step a b).
Qed.

Lemma createSeedFromInput_fold (text : jsstring) (biometrics : option BrainwaveData) :
  createSeedFromInput text biometrics = deriveSeed text biometrics.
Proof.
  unfold createSeedFromInput, deriveSeed, biometricDigits.
  cbv zeta. rewrite hash_fold. reflexivity.
Qed.

(** C3. createSeedFromInput is the seed derivation of the design: over the code
    units of the text followed by the decimal digits of the three biometric
    fields (nothing when they are absent) it keeps a signed 32-bit accumulator,
    updated as h * 31 + charCode truncated to 32 bits at each code unit, and
    returns its absolute value; the empty input gives seed 0. Being a function
    of its two arguments, equal inputs give equal seeds. *)
Theorem createSeedFromInput_deriveSeed :
  (forall (text : jsstring) (biometrics : option BrainwaveData),
     createSeedFromInput text biometrics = deriveSeed text biometrics)
  /\ createSeedFromInput [] None = 0
  /\ (forall b : BrainwaveData,
        biometricDigits (Some b)
        = intToString (attention b) ++ intToString (meditation b)
          ++ intToString (signalQuality b))
  /\ biometricDigits None = [].
Proof.
  split; [|split; [|split]].
  - apply createSeedFromInput_fold.
  - reflexivity.
  - intros b. reflexivity.
  - reflexivity.
Qed.

(** *** The seeded generator *)

Lemma setHeap_id (w : World) : setHeap (heap w) w = w.
Proof. destruct w; reflexivity. Qed.

Lemma setHeap_setHeap (h h' : list Z) (w : World) :
  setHeap h (setHeap h' w) = setHeap h w.
Proof. reflexivity. Qed.

Lemma heap_setHeap (h : list Z) (w : World) : heap (setHeap h w) = h.
Proof. reflexivity. Qed.

Lemma lcgNext_range (s : Z) : 0 <= lcgNext s < 233280.
Proof. unfold lcgNext. apply Z.mod_pos_bound. lia. Qed.

Lemma lcgState_shift (s : Z) (n : nat) :
  lcgState (lcgNext s) n = lcgState s (S n).
Proof.
  induction n as [|n IH]; simpl.
  - reflexivity.
  - simpl in IH. now rewrite IH.
Qed.

Lemma lcgState_range (s : Z) (n : nat) : 0 <= lcgState s (S n) < 233280.
Proof. simpl. apply lcgNext_range. Qed.

Lemma lcgState_nonneg (s : Z) (n : nat) : 0 <= s -> 0 <= lcgState s n.
Proof.
  intros Hs. destruct n as [|n]; [exact Hs|].
  pose proof (lcgState_range s n). lia.
Qed.

(** A call advances the closure's own cell by the recurrence and returns the
    new state divided by the modulus. *)
Lemma callSeededRandom_step (f : Closure) (w : World) (s : Z) :
  heap w !! f = Some s -> 0 <= s ->
  callSeededRandom f w
  = (Returned (float_of_Z (lcgNext s) / 233280)%float,
     setHeap (<[f := lcgNext s]> (heap w)) w).
Proof.
  intros Hf Hs. unfold callSeededRandom. rewrite Hf.
  rewrite Z.rem_mod_nonneg by lia. reflexivity.
Qed.

Lemma draws_spec (n : nat) :
  forall (f : Closure) (w : World) (s : Z),
    heap w !! f = Some s -> 0 <= s ->
    draws f n w
    = (Returned (map (lcgDraw s) (seq 1 n)),
       setHeap (<[f := lcgState s n]> (heap w)) w).
Proof.
  induction n as [|n IH]; intros f w s Hf Hs.
  - simpl. unfold ret. rewrite list_insert_id by exact Hf.
    now rewrite setHeap_id.
  - cbn [draws]. unfold bind at 1.
    rewrite (callSeededRandom_step f w s Hf Hs).
    assert (Hlt : (f < length (heap w))%nat) by (eapply lookup_lt_Some; eauto).
    unfold bind at 1.
    rewrite (IH f _ (lcgNext s)).
    + unfold ret. rewrite heap_setHeap, setHeap_setHeap, list_insert_insert_eq.
      rewrite lcgState_shift. f_equal. f_equal.
      cbn [seq map]. f_equal.
      rewrite <- (seq_shift n 1), map_map.
      apply map_ext. intros k. unfold lcgDraw. now rewrite lcgState_shift.
    + rewrite heap_setHeap. now apply list_lookup_insert_eq.
    + apply lcgNext_range.
Qed.

(** Calls of one closure leave the cell of every other closure alone. *)
Lemma draws_other_cell (n : nat) (f g : Closure) (w : World) (s : Z) :
  f <> g -> heap w !! f = Some s -> 0 <= s ->
  heap (snd (draws f n w)) !! g = heap w !! g.
Proof.
  intros Hfg Hf Hs. rewrite (draws_spec n f w s Hf Hs). simpl.
  now apply list_lookup_insert_ne.
Qed.

Lemma created_draws (seed : Z) (n : nat) (w : World) :
  0 <= seed ->
  (f <- createSeededRandom seed ;; draws f n) w
  = (Returned (map (lcgDraw seed) (seq 1 n)),
     setHeap (heap w ++ [lcgState seed n]) w).
Proof.
  intros Hs. unfold bind, createSeededRandom.
  rewrite (draws_spec n _ _ seed).
  - rewrite heap_setHeap, setHeap_setHeap. f_equal. f_equal.
    rewrite insert_app_r_alt by lia. now rewrite Nat.sub_diag.
  - rewrite heap_setHeap. rewrite lookup_app_r by lia.
    now rewrite Nat.sub_diag.
  - exact Hs.
Qed.

Lemma allFrom_spec (p : Z -> bool) (count : nat) :
  forall s : Z, allFrom count s p = true ->
    forall z : Z, s <= z < s + Z.of_nat count -> p z = true.
Proof.
  induction count as [|count IH]; intros s H z Hz.
  - lia.
  - cbn [allFrom] in H. apply andb_true_iff in H as [Hp Hrest].
    destruct (Z.eq_dec z s) as [->|Hne]; [exact Hp|].
    apply (IH (s + 1) Hrest). lia.
Qed.

(** Every state that the recurrence can reach gives a draw in [0, 1): checked
    on each of the 233280 states, in the arithmetic of doubles. *)
Lemma all_draws_in_unit_interval :
  allFrom (Z.to_nat 233280) 0
    (fun s => inUnitInterval (float_of_Z s / 233280)%float) = true.
Proof. vm_compute. reflexivity. Qed.

Lemma lcgDraw_in_unit_interval (seed : Z) (k : nat) :
  inUnitInterval (lcgDraw seed (S k)) = true.
Proof.
  unfold lcgDraw.
  apply (allFrom_spec _ _ 0 all_draws_in_unit_interval).
  pose proof (lcgState_range seed k). lia.
Qed.

(** C4. For a non-negative 32-bit seed, each call of the generator made by
    createSeededRandom advances its state by s := (s * 9301 + 49297) mod 233280
    and returns s / 233280; two generators made from the same seed give the
    same first n draws, for every n; and every draw lies in [0, 1). *)
Theorem createSeededRandom_lcg (seed : Z) (Hseed : 0 <= seed < 2 ^ 32) :
  (forall (n : nat) (w : World),
     (f <- createSeededRandom seed ;; draws f n) w
     = (Returned (map (lcgDraw seed) (seq 1 n)),
        setHeap (heap w ++ [lcgState seed n]) w))
  /\ (forall (f : Closure) (w : World) (s : Z),
        heap w !! f = Some s -> 0 <= s ->
        callSeededRandom f w
        = (Returned (float_of_Z (lcgNext s) / 233280)%float,
           setHeap (<[f := lcgNext s]> (heap w)) w))
  /\ (forall (n : nat) (w : World),
        fst (twoGenerators seed n w)
        = Returned (map (lcgDraw seed) (seq 1 n), map (lcgDraw seed) (seq 1 n)))
  /\ (forall (n : nat) (d : float),
        d ∈ map (lcgDraw seed) (seq 1 n) ->
        PrimFloat.leb 0 d = true /\ PrimFloat.ltb d 1 = true).
Proof.
  assert (H0 : 0 <= seed) by lia.
  split; [|split; [|split]].
  - intros n w. now apply created_draws.
  - intros f w s. apply callSeededRandom_step.
  - intros n w. unfold twoGenerators.
    unfold bind at 1. cbn [createSeededRandom].
    unfold bind at 1. cbn [createSeededRandom].
    set (h := heap w).
    set (w2 := setHeap (heap (setHeap (h ++ [seed]) w) ++ [seed])
                 (setHeap (h ++ [seed]) w)).
    assert (H1 : heap w2 !! length h = Some seed).
    { subst w2. rewrite !heap_setHeap.
      rewrite lookup_app_l by (rewrite length_app; simpl; lia).
      rewrite lookup_app_r by lia. now rewrite Nat.sub_diag. }
    assert (H2 : heap w2 !! length (heap (setHeap (h ++ [seed]) w)) = Some seed).
    { subst w2. rewrite !heap_setHeap.
      rewrite lookup_app_r by lia. now rewrite Nat.sub_diag. }
    unfold bind at 1. rewrite (draws_spec n _ w2 seed H1 H0).
    unfold bind at 1. rewrite (draws_spec n _ _ seed).
    + reflexivity.
    + rewrite !heap_setHeap in *. rewrite list_lookup_insert_ne; [exact H2|].
      rewrite length_app. simpl. lia.
    + exact H0.
  - intros n d Hd. apply list_elem_of_fmap in Hd as (k & -> & Hk).
    apply elem_of_seq in Hk.
    destruct k as [|k]; [lia|].
    pose proof (lcgDraw_in_unit_interval seed k) as Hin.
    unfold inUnitInterval in Hin. now apply andb_true_iff in Hin.
Qed.

(** *** Substrings *)

Lemma startsWith_spec (pat : jsstring) :
  forall s : jsstring, startsWith pat s = true <-> exists post, s = pat ++ post.
Proof.
  induction pat as [|p pat IH]; intros s.
  - split; [intros _; now exists s | reflexivity].
  - destruct s as [|c s]; cbn [startsWith].
    + split; [discriminate | intros [post H]; discriminate].
    + destruct (N.eqb_spec p c) as [->|Hne].
      * rewrite IH. split.
        -- intros [post ->]. now exists post.
        -- intros [post H]. cbn [app] in H. injection H as ->. now exists post.
      * split; [discriminate|].
        intros [post H]. cbn [app] in H. congruence.
Qed.

Lemma includes_spec (pat : jsstring) :
  forall s : jsstring, includes s pat = true <-> contains s pat.
Proof.
  unfold contains.
  induction s as [|c s IH]; cbn [includes].
  - destruct (startsWith pat []) eqn:E.
    + apply startsWith_spec in E as [post H].
      split; [intros _; now exists [], post | reflexivity].
    + split; [discriminate|].
      intros (pre & post & H). destruct pre; [|discriminate].
      assert (E' : startsWith pat [] = true)
        by (apply startsWith_spec; now exists post).
      congruence.
  - destruct (startsWith pat (c :: s)) eqn:E.
    + apply startsWith_spec in E as [post H].
      split; [intros _; now exists [], post | reflexivity].
    + rewrite IH. split.
      * intros (pre & post & H). exists (c :: pre), post. now rewrite H.
      * intros (pre & post & H). destruct pre as [|d pre].
        -- assert (E' : startsWith pat (c :: s) = true)
             by (apply startsWith_spec; now exists post).
           congruence.
        -- cbn [app] in H. injection H as -> H. now exists pre, post.
Qed.

Lemma includes_false (pat s : jsstring) :
  includes s pat = false <-> ~ contains s pat.
Proof.
  rewrite <- includes_spec. destruct (includes s pat); split; intros H;
    try congruence; try reflexivity; exfalso; now apply H.
Qed.

(** *** Regular expressions *)

Lemma lastUnit_cons (prev : option N) (c : N) (w : jsstring) :
  lastUnit prev (c :: w) = lastUnit (Some c) w.
Proof.
  unfold lastUnit. rewrite last_cons. now destruct (last w).
Qed.

Lemma lastUnit_app (prev : option N) (a b : jsstring) :
  lastUnit prev (a ++ b) = lastUnit (lastUnit prev a) b.
Proof.
  revert prev. induction a as [|c a IH]; intros prev.
  - reflexivity.
  - cbn [app]. now rewrite !lastUnit_cons, IH.
Qed.

Lemma matchChars_spec (w : jsstring) :
  forall (prev : option N) (rest : jsstring) (p : option N) (s : jsstring),
    matchChars w prev rest = Some (p, s)
    <-> rest = w ++ s /\ p = lastUnit prev w.
Proof.
  induction w as [|c w IH]; intros prev rest p s; cbn [matchChars].
  - split.
    + intros H. now injection H as -> ->.
    + intros [-> ->]. reflexivity.
  - destruct rest as [|d rest].
    + split; [discriminate | intros [H _]; cbn [app] in H; discriminate].
    + destruct (N.eqb_spec c d) as [->|Hne].
      * rewrite IH, lastUnit_cons. split.
        -- intros [-> ->]. now split.
        -- intros [H ->]. cbn [app] in H. injection H as ->. now split.
      * split; [discriminate | intros [H _]; cbn [app] in H; congruence].
Qed.

Lemma matchAt_alternation (ws : list jsstring) :
  forall (w : jsstring) (prev : option N) (rest : jsstring)
         (k : option N -> jsstring -> bool),
    matchAt (alternation w ws) prev rest k = true
    <-> exists w' s, w' ∈ w :: ws /\ rest = w' ++ s
                     /\ k (lastUnit prev w') s = true.
Proof.
  induction ws as [|w1 ws IH]; intros w prev rest k.
  - cbn [alternation matchAt]. split.
    + destruct (matchChars w prev rest) as [[p s]|] eqn:E; [|discriminate].
      apply matchChars_spec in E as [-> ->]. intros Hk.
      exists w, s. split; [apply list_elem_of_here | now split].
    + intros (w' & s & Hin & -> & Hk).
      apply list_elem_of_singleton in Hin as ->.
      assert (E : matchChars w prev (w ++ s) = Some (lastUnit prev w, s))
        by now apply matchChars_spec.
      now rewrite E.
  - cbn [alternation matchAt]. rewrite orb_true_iff, (IH w1). split.
    + intros [H | (w' & s & Hin & Hrest & Hk)].
      * destruct (matchChars w prev rest) as [[p s]|] eqn:E; [|discriminate].
        apply matchChars_spec in E as [-> ->].
        exists w, s. split; [apply list_elem_of_here | now split].
      * exists w', s. split; [now apply list_elem_of_further | now split].
    + intros (w' & s & Hin & -> & Hk).
      apply elem_of_cons in Hin as [-> | Hin].
      * left.
        assert (E : matchChars w prev (w ++ s) = Some (lastUnit prev w, s))
          by now apply matchChars_spec.
        now rewrite E.
      * right. now exists w', s.
Qed.

Lemma searchFrom_spec (r : regex) :
  forall (s : jsstring) (prev : option N),
    searchFrom r prev s = true
    <-> exists pre post, s = pre ++ post
          /\ matchAt r (lastUnit prev pre) post (fun _ _ => true) = true.
Proof.
  induction s as [|c s IH]; intros prev; cbn [searchFrom].
  - rewrite orb_false_r. split.
    + intros H. now exists [], [].
    + intros (pre & post & H & Hm).
      symmetry in H. apply app_eq_nil in H as [-> ->]. exact Hm.
  - rewrite orb_true_iff, IH. split.
    + intros [H | (pre & post & -> & Hm)].
      * now exists [], (c :: s).
      * exists (c :: pre), post. split; [reflexivity|].
        now rewrite lastUnit_cons.
    + intros (pre & post & H & Hm). destruct pre as [|d pre].
      * left. cbn [app] in H. now subst post.
      * right. injection H as -> ->. exists pre, post.
        split; [reflexivity|]. now rewrite lastUnit_cons in Hm.
Qed.

(** A regex of the form [\b(w|w1|...|wn)\b] matches exactly when one of its
    words stands in the text as a whole word. *)
Lemma wordRegex_spec (w : jsstring) (ws : list jsstring) (s : jsstring) :
  RegExp_test (wordRegex w ws) s = true <-> wholeWordOccurs (w :: ws) s.
Proof.
  unfold RegExp_test, wholeWordOccurs. rewrite searchFrom_spec. split.
  - intros (pre & post & -> & Hm).
    unfold wordRegex in Hm. cbn [matchAt] in Hm.
    apply andb_true_iff in Hm as [Hb Hm].
    apply matchAt_alternation in Hm as (w' & s' & Hin & -> & Hk).
    rewrite andb_true_r in Hk.
    exists pre, w', s'. repeat split; try assumption.
    now rewrite lastUnit_app.
  - intros (pre & w' & post & -> & Hin & Hb1 & Hb2).
    exists pre, (w' ++ post). split; [reflexivity|].
    unfold wordRegex. cbn [matchAt]. rewrite Hb1. cbn [andb].
    apply matchAt_alternation. exists w', post.
    repeat split; try assumption.
    rewrite andb_true_r. now rewrite <- lastUnit_app.
Qed.

Lemma toLowerCase_nil : toLowerCase [] = [].
Proof using toLowerCase_ascii. now rewrite toLowerCase_ascii. Qed.

(** C5. extractThemesFromVoice is defined on every transcript: each of the five
    flags is the result of its word-boundary alternation regex on the
    lower-cased transcript, so it is set exactly when one of the regex's words
    stands there as a whole word; an empty or absent transcript gives five
    false flags; and "I feel so much love and peace" sets love and peace
    only. *)
Theorem extractThemesFromVoice_flags :
  (forall t : jsstring,
     let themes := extractThemesFromVoice (Some t) in
     let lower := toLowerCase t in
     themes
     = {| peace := RegExp_test peaceRegex lower;
          love := RegExp_test loveRegex lower;
          strength := RegExp_test strengthRegex lower;
          growth := RegExp_test growthRegex lower;
          gratitude := RegExp_test gratitudeRegex lower |}
     /\ (peace themes = true <-> wholeWordOccurs peaceWords lower)
     /\ (love themes = true <-> wholeWordOccurs loveWords lower)
     /\ (strength themes = true <-> wholeWordOccurs strengthWords lower)
     /\ (growth themes = true <-> wholeWordOccurs growthWords lower)
     /\ (gratitude themes = true <-> wholeWordOccurs gratitudeWords lower))
  /\ extractThemesFromVoice None
     = {| peace := false; love := false; strength := false; growth := false;
          gratitude := false |}
  /\ extractThemesFromVoice (Some [])
     = {| peace := false; love := false; strength := false; growth := false;
          gratitude := false |}
  /\ extractThemesFromVoice (Some (js "I feel so much love and peace"))
     = {| peace := true; love := true; strength := false; growth := false;
          gratitude := false |}.
Proof using toLowerCase_ascii.
  split; [|split; [|split]]; try reflexivity.
  - intros t themes lower.
    assert (E : themes
      = {| peace := RegExp_test peaceRegex lower;
           love := RegExp_test loveRegex lower;
           strength := RegExp_test strengthRegex lower;
           growth := RegExp_test growthRegex lower;
           gratitude := RegExp_test gratitudeRegex lower |}).
    { subst themes lower. destruct t as [|c t]; [|reflexivity].
      cbn [extractThemesFromVoice]. rewrite toLowerCase_nil. reflexivity. }
    split; [exact E|].
    rewrite E. cbn [peace love strength growth gratitude].
    repeat split; try (apply wordRegex_spec); try (apply wordRegex_spec).
  - unfold extractThemesFromVoice.
    change (js "I feel so much love and peace")
      with (73%N :: tl (js "I feel so much love and peace")).
    cbv iota beta.
    rewrite toLowerCase_ascii by (vm_compute; reflexivity).
    vm_compute. reflexivity.
Qed.

(** C6. determineMandalaStyle takes the first rule that fires on the
    lower-cased prompt: "dot" or "aboriginal" gives dotpainting; otherwise
    "geometric" or "sacred" gives sacred; otherwise "flower" or "petal" gives
    floral; otherwise geometric. "a sacred dot painting" gives dotpainting. *)
Theorem determineMandalaStyle_priority :
  (forall p : jsstring,
     let lower := toLowerCase p in
     let rule1 := contains lower (js "dot") \/ contains lower (js "aboriginal") in
     let rule2 := contains lower (js "geometric") \/ contains lower (js "sacred") in
     let rule3 := contains lower (js "flower") \/ contains lower (js "petal") in
     (rule1 -> determineMandalaStyle p = dotpainting)
     /\ (~ rule1 -> rule2 -> determineMandalaStyle p = sacred)
     /\ (~ rule1 -> ~ rule2 -> rule3 -> determineMandalaStyle p = floral)
     /\ (~ rule1 -> ~ rule2 -> ~ rule3 -> determineMandalaStyle p = geometric))
  /\ determineMandalaStyle (js "a sacred dot painting") = dotpainting.
Proof using toLowerCase_ascii.
  split.
  - intros p lower rule1 rule2 rule3.
    assert (R1 : rule1 <-> includes lower (js "dot")
                           || includes lower (js "aboriginal") = true)
      by (subst rule1; rewrite orb_true_iff, !includes_spec; reflexivity).
    assert (R2 : rule2 <-> includes lower (js "geometric")
                           || includes lower (js "sacred") = true)
      by (subst rule2; rewrite orb_true_iff, !includes_spec; reflexivity).
    assert (R3 : rule3 <-> includes lower (js "flower")
                           || includes lower (js "petal") = true)
      by (subst rule3; rewrite orb_true_iff, !includes_spec; reflexivity).
    rewrite R1, R2, R3. clear R1 R2 R3 rule1 rule2 rule3.
    unfold determineMandalaStyle. fold lower.
    destruct (includes lower (js "dot") || includes lower (js "aboriginal")),
      (includes lower (js "geometric") || includes lower (js "sacred")),
      (includes lower (js "flower") || includes lower (js "petal"));
      repeat split; intros;
      first [ reflexivity | congruence
            | exfalso; match goal with H : ~ _ |- _ => apply H; reflexivity end ].
  - unfold determineMandalaStyle.
    rewrite toLowerCase_ascii by (vm_compute; reflexivity).
    vm_compute. reflexivity.
Qed.

(** *** The numeric-to-style mapping *)

(** Settles the comparisons with 30, 50 and 70 that the hypotheses decide. *)
Ltac decide_comparisons :=
  repeat match goal with
  | |- context [?a >? ?b] =>
      first [ rewrite (proj2 (Z.gtb_lt a b)) by lia
            | rewrite (Z.gtb_ltb a b), (proj2 (Z.ltb_ge b a)) by lia ]
  | |- context [?a <? ?b] =>
      first [ rewrite (proj2 (Z.ltb_lt a b)) by lia
            | rewrite (proj2 (Z.ltb_ge a b)) by lia ]
  end.

(** C8. The mapping of generateMandalaImage uses strict thresholds: attention
    above 70 selects the precise descriptor and below 30 the flowing one, with
    30 and 70 themselves in the balanced band; meditation above 70 selects the
    calm descriptor and below 30 the energetic one, with the same boundaries;
    and a signal quality below 50 appends the ethereal modifier and changes
    nothing that the other two axes chose. *)
Theorem styleDescriptors_thresholds (b : BrainwaveData) :
  (attention b > 70 ->
   complexityLevelOf (Some b) = js "highly intricate and precisely detailed with sharp geometric precision"
   /\ startsWith (js "focused energy patterns with crystalline clarity, ") (styleModifiersOf (Some b)) = true)
  /\ (attention b < 30 ->
      complexityLevelOf (Some b) = js "flowing and organic with soft, dreamy details"
      /\ startsWith (js "gentle, flowing energy with soft focus, ") (styleModifiersOf (Some b)) = true)
  /\ (30 <= attention b <= 70 ->
      complexityLevelOf (Some b) = js "balanced complexity with harmonious details"
      /\ startsWith (js "centered and stable energy patterns, ") (styleModifiersOf (Some b)) = true)
  /\ (meditation b > 70 -> colorIntensityOf (Some b) = js "deep, calming colors with gentle gradients and peaceful luminescence")
  /\ (meditation b < 30 -> colorIntensityOf (Some b) = js "vibrant, dynamic colors with energetic contrasts and bright highlights")
  /\ (30 <= meditation b <= 70 -> colorIntensityOf (Some b) = js "balanced color palette with moderate intensity and natural harmony")
  /\ (forall q : Z,
        complexityLevelOf (Some (withSignalQuality b q)) = complexityLevelOf (Some b)
        /\ colorIntensityOf (Some (withSignalQuality b q)) = colorIntensityOf (Some b))
  /\ (forall q q' : Z, q < 50 -> 50 <= q' ->
        styleModifiersOf (Some (withSignalQuality b q))
        = styleModifiersOf (Some (withSignalQuality b q')) ++ js "with subtle ethereal effects and mystical atmosphere, ").
Proof.
  unfold complexityLevelOf, colorIntensityOf, styleModifiersOf, withSignalQuality,
    styleDescriptors.
  cbn [attention meditation signalQuality].
  split; [|split; [|split; [|split; [|split; [|split; [|split]]]]]].
  1-3: intros H; decide_comparisons;
    destruct (meditation b >? 70), (meditation b <? 30), (signalQuality b <? 50);
    split; reflexivity.
  1-3: intros H; decide_comparisons;
    destruct (attention b >? 70), (attention b <? 30), (signalQuality b <? 50);
    reflexivity.
  - intros q.
    destruct (attention b >? 70), (attention b <? 30), (meditation b >? 70),
      (meditation b <? 30), (q <? 50), (signalQuality b <? 50);
      split; reflexivity.
  - intros q q' Hq Hq'. decide_comparisons.
    destruct (attention b >? 70), (attention b <? 30), (meditation b >? 70),
      (meditation b <? 30); reflexivity.
Qed.

(** *** The fallback prompt *)

Lemma getFallbackPrompt_without_themes (o : MandalaGenerationOptions) (t : jsstring) :
  voiceTranscript o = Some t -> (length t <= 5)%nat ->
  getFallbackPrompt o
  = promptWithoutThemes (brainwaveData o) (style o) (colorPalette o).
Proof.
  intros Ht Hlen. unfold getFallbackPrompt, promptWithoutThemes, promptSkeleton.
  rewrite Ht.
  assert (E : (5 <? length t)%nat = false) by (apply Nat.ltb_ge; exact Hlen).
  rewrite E, andb_false_r. reflexivity.
Qed.

Lemma getFallbackPrompt_absent (o : MandalaGenerationOptions) :
  voiceTranscript o = None ->
  getFallbackPrompt o
  = promptWithoutThemes (brainwaveData o) (style o) (colorPalette o).
Proof.
  intros Ht. unfold getFallbackPrompt, promptWithoutThemes, promptSkeleton.
  rewrite Ht. reflexivity.
Qed.

Lemma forallb_bool (f : bool -> bool) :
  forallb f [true; false] = true -> forall b : bool, f b = true.
Proof.
  cbn [forallb]. rewrite !andb_true_iff. intros (Ht & Hf & _) [|]; assumption.
Qed.

Lemma forallb_allStyles (f : option Style -> bool) :
  forallb f allStyles = true -> forall s : option Style, f s = true.
Proof.
  unfold allStyles. cbn [forallb]. rewrite !andb_true_iff.
  intros (H0 & H1 & H2 & H3 & H4 & _) [[]|]; assumption.
Qed.

Lemma forallb_allColorPalettes (f : option ColorPalette -> bool) :
  forallb f allColorPalettes = true -> forall c : option ColorPalette, f c = true.
Proof.
  unfold allColorPalettes. cbn [forallb]. rewrite !andb_true_iff.
  intros (H0 & H1 & H2 & H3 & H4 & _) [[]|]; assumption.
Qed.

(** No variant of the prompt without themes holds a theme sentence: checked on
    each of the 400 variants. *)
Lemma promptSkeleton_no_sentence_all :
  forallb (fun a70 => forallb (fun a30 => forallb (fun m70 => forallb (fun m30 =>
    forallb (fun st => forallb (fun cp =>
      forallb (fun sentence =>
                 negb (includes (promptSkeleton a70 a30 m70 m30 st cp) sentence))
        themeSentences)
      allColorPalettes) allStyles)
    [true; false]) [true; false]) [true; false]) [true; false] = true.
Proof. vm_compute. reflexivity. Qed.

Lemma promptWithoutThemes_no_sentence (b : BrainwaveData) (st : option Style)
  (cp : option ColorPalette) :
  forallb (fun sentence => negb (includes (promptWithoutThemes b st cp) sentence))
    themeSentences = true.
Proof.
  unfold promptWithoutThemes.
  pose proof promptSkeleton_no_sentence_all as H.
  apply forallb_bool with (b := attention b >? 70) in H.
  apply forallb_bool with (b := attention b <? 30) in H.
  apply forallb_bool with (b := meditation b >? 70) in H.
  apply forallb_bool with (b := meditation b <? 30) in H.
  apply forallb_allStyles with (s := st) in H.
  apply forallb_allColorPalettes with (c := cp) in H.
  exact H.
Qed.

(** C10. For a transcript of at most 5 code units the prompt of
    getFallbackPrompt holds none of the five theme sentences, whatever the
    theme regexes find: it is the prompt without the theme block. The
    transcript "love" sets the love flag and still adds no heart-centered
    symbolism. *)
Theorem getFallbackPrompt_short_transcript :
  (forall (o : MandalaGenerationOptions) (t : jsstring),
     voiceTranscript o = Some t -> (length t <= 5)%nat ->
     getFallbackPrompt o
     = promptWithoutThemes (brainwaveData o) (style o) (colorPalette o)
     /\ Forall (fun sentence => includes (getFallbackPrompt o) sentence = false)
          themeSentences)
  /\ (forall (b : BrainwaveData) (st : option Style) (cp : option ColorPalette),
        love (extractThemesFromVoice (Some (js "love"))) = true
        /\ includes
             (getFallbackPrompt
                {| voiceTranscript := Some (js "love"); brainwaveData := b;
                   style := st; colorPalette := cp |})
             loveSentence = false).
Proof using toLowerCase_ascii.
  assert (Hno : forall b st cp,
    Forall (fun sentence => includes (promptWithoutThemes b st cp) sentence = false)
      themeSentences).
  { intros b st cp. apply Forall_forall. intros s Hs.
    pose proof (promptWithoutThemes_no_sentence b st cp) as H.
    rewrite forallb_forall in H. specialize (H s).
    apply negb_true_iff, H. now apply list_elem_of_In. }
  split.
  - intros o t Ht Hlen.
    rewrite (getFallbackPrompt_without_themes o t Ht Hlen).
    split; [reflexivity | apply Hno].
  - intros b st cp. split.
    + unfold extractThemesFromVoice.
      change (js "love") with (108%N :: tl (js "love")).
      cbv iota beta.
      rewrite toLowerCase_ascii by (vm_compute; reflexivity).
      vm_compute. reflexivity.
    + rewrite (getFallbackPrompt_without_themes _ (js "love")).
      * specialize (Hno b st cp). rewrite Forall_forall in Hno.
        apply Hno. unfold themeSentences. apply list_elem_of_In.
        right; left; reflexivity.
      * reflexivity.
      * vm_compute. lia.
Qed.

(** *** The layers of the composition *)

Lemma forLoop_append (g : Z -> jsstring) (count : nat) :
  forall (i : Z) (acc : jsstring),
    forLoop count i (fun i acc => acc ++ g i) acc
    = acc ++ concat (map (fun k => g (i + Z.of_nat k)) (seq 0 count)).
Proof.
  induction count as [|count IH]; intros i acc.
  - cbn [forLoop seq map concat]. now rewrite app_nil_r.
  - cbn [forLoop seq map concat]. rewrite IH, <- app_assoc.
    rewrite Z.add_0_r. f_equal. f_equal. f_equal.
    rewrite <- seq_shift, map_map.
    apply map_ext. intros k. f_equal. lia.
Qed.

Lemma forLoop_from_zero (g : Z -> jsstring) (count : nat) (acc : jsstring) :
  forLoop count 0 (fun i acc => acc ++ g i) acc
  = acc ++ concat (map g (upTo count)).
Proof.
  rewrite forLoop_append. unfold upTo. now rewrite map_map.
Qed.

Lemma generateOuterRing_motifs (colors : Colors) (style : MandalaStyle)
  (r : option Closure) (w : World) :
  generateOuterRing colors style r w
  = (Returned (concat (map (outerRingMotif colors) (ringAngles 12))), w).
Proof.
  unfold generateOuterRing, ret. cbv zeta.
  rewrite (forLoop_from_zero
             (fun i => outerRingMotif colors (360 / float_of_Z 12 * float_of_Z i)%float)).
  unfold ringAngles. now rewrite map_map.
Qed.

Lemma generateDetailedPetals_motifs (colors : Colors) (style : MandalaStyle)
  (r : option Closure) (w : World) :
  generateDetailedPetals colors style r w
  = (Returned (concat (map (petalMotif colors) (ringAngles 8))), w).
Proof.
  unfold generateDetailedPetals, ret. cbv zeta.
  rewrite (forLoop_from_zero
             (fun i => petalMotif colors (360 / float_of_Z 8 * float_of_Z i)%float)).
  unfold ringAngles. now rewrite map_map.
Qed.

Lemma generateDotPatterns_dots (colors : Colors) (style : MandalaStyle)
  (r : option Closure) (w : World) :
  generateDotPatterns colors style r w
  = (Returned
       (concat
          (map (fun radius =>
                  concat (map (dotAt colors radius) (ringAngles (radius / 2))))
             [20; 35; 50])), w).
Proof.
  unfold generateDotPatterns, ret. cbv zeta. cbn [fold_left].
  rewrite (forLoop_from_zero
    (fun i => dotAt colors 20 (360 / float_of_Z (20 / 2) * float_of_Z i)%float)).
  rewrite (forLoop_from_zero
    (fun i => dotAt colors 35 (360 / float_of_Z (35 / 2) * float_of_Z i)%float)).
  rewrite (forLoop_from_zero
    (fun i => dotAt colors 50 (360 / float_of_Z (50 / 2) * float_of_Z i)%float)).
  cbn [map concat app]. rewrite app_nil_r, app_assoc.
  unfold ringAngles. now rewrite !map_map.
Qed.

(** C7. Whatever the palette and the style, the outer ring is made of exactly
    petalCount = 12 motifs, at the angles (360/12) * i, which are 30 degrees
    apart and span 360 degrees; and the dot field goes through the radii 20,
    35, 50 in this order and places, for each radius r, floor(r/2) dots, at
    the angles (360/floor(r/2)) * i, each at (cos t * r, sin t * r) for the
    angle t in radians. *)
Theorem layers_structure (colors : Colors) (style : MandalaStyle)
  (r : option Closure) (w : World) :
  generateOuterRing colors style r w
  = (Returned (concat (map (outerRingMotif colors) (ringAngles 12))), w)
  /\ ringAngles 12
     = [0; 30; 60; 90; 120; 150; 180; 210; 240; 270; 300; 330]%float
  /\ steps (ringAngles 12) = repeat 30%float 11
  /\ (360 / float_of_Z 12 * float_of_Z 12 = 360)%float
  /\ generateDotPatterns colors style r w
     = (Returned
          (concat
             (map (fun radius =>
                     concat (map (dotAt colors radius) (ringAngles (radius / 2))))
                [20; 35; 50])), w)
  /\ map (fun radius => (radius / 2, length (ringAngles (radius / 2))))
       [20; 35; 50]
     = [(10, 10%nat); (17, 17%nat); (25, 25%nat)]
  /\ (forall (radius : Z) (angle : float),
        dotPosition radius angle
        = ((Math_cos (angle * Math_PI / 180) * float_of_Z radius)%float,
           (Math_sin (angle * Math_PI / 180) * float_of_Z radius)%float)).
Proof.
  split; [apply generateOuterRing_motifs|].
  split; [vm_compute; reflexivity|].
  split; [vm_compute; reflexivity|].
  split; [vm_compute; reflexivity|].
  split; [apply generateDotPatterns_dots|].
  split; [vm_compute; reflexivity|].
  intros radius angle. reflexivity.
Qed.

(** *** The structure of the fallback prompt *)

Lemma if_app (c : bool) (p s : jsstring) :
  (if c then p ++ s else p) = p ++ (if c then s else []).
Proof. destruct c; [reflexivity | now rewrite app_nil_r]. Qed.

Lemma if_app3 (c1 c2 : bool) (p s1 s2 s3 : jsstring) :
  (if c1 then p ++ s1 else if c2 then p ++ s2 else p ++ s3)
  = p ++ (if c1 then s1 else if c2 then s2 else s3).
Proof. destruct c1, c2; reflexivity. Qed.

Lemma truthy_long (t : jsstring) :
  truthy (Some t) && (5 <? length t)%nat = (5 <? length t)%nat.
Proof. destruct t; reflexivity. Qed.

(** The fallback prompt is its head, then the theme block, then its tail. *)
Lemma getFallbackPrompt_parts (o : MandalaGenerationOptions) :
  getFallbackPrompt o
  = promptHead (brainwaveData o) (colorPalette o)
    ++ themeBlock (voiceTranscript o) ++ promptTail (style o).
Proof.
  unfold getFallbackPrompt, promptHead, promptHeadOf, themeBlock, promptTail.
  destruct (voiceTranscript o) as [t|]; cbv zeta.
  - rewrite truthy_long.
    destruct (5 <? length t)%nat.
    + rewrite !if_app, !if_app3. now rewrite <- !app_assoc.
    + rewrite !if_app3. now rewrite <- !app_assoc.
  - rewrite !if_app3. now rewrite <- !app_assoc.
Qed.

Lemma getFallbackPrompt_nonempty (o : MandalaGenerationOptions) :
  getFallbackPrompt o <> [].
Proof.
  rewrite getFallbackPrompt_parts. unfold promptHead, promptHeadOf. discriminate.
Qed.

(** *** The composition *)

(** The markup is a function of the colours, and the only trace that the
    composer leaves in the world is the cell of the generator it made. *)
Lemma createSVGMandala_run (colors : Colors) :
  exists markup : jsstring,
    forall (p : jsstring) (b : option BrainwaveData) (w : World),
      extractColorsFromPrompt p = colors ->
      createSVGMandala p b w
      = (Returned markup, setHeap (heap w ++ [createSeedFromInput p b]) w).
Proof.
  eexists. intros p b w Hc.
  unfold createSVGMandala. cbv zeta. rewrite Hc.
  cbv beta iota delta
    [bind ret createSeededRandom addColorVariation generateGradients
     generatePatterns generateFilters generateOuterRing generateMiddleRings
     generateInnerPatterns generateDetailedPetals generateSacredGeometry
     generateDotPatterns generateCenterMotif].
  reflexivity.
Qed.

Lemma createSVGMandala_returns (p : jsstring) (b : option BrainwaveData)
  (w : World) :
  exists markup : jsstring,
    createSVGMandala p b w
    = (Returned markup, setHeap (heap w ++ [createSeedFromInput p b]) w).
Proof.
  destruct (createSVGMandala_run (extractColorsFromPrompt p)) as [markup H].
  exists markup. now apply H.
Qed.

(** C9. For every prompt, any two biometric values, present or absent, give
    the same SVG markup: addColorVariation returns its colours as they are, no
    layer generator calls the generator it is passed (each is a pure layer),
    and so the markup is determined by the prompt, through the colours taken
    from it, and by nothing of the seed or the biometrics. *)
Theorem createSVGMandala_ignores_biometrics :
  (forall (colors : Colors) (f : Closure) (w : World),
     addColorVariation colors f w = (Returned colors, w))
  /\ (pureLayer generateGradients
      /\ pureLayer (fun colors _ seededRandom => generatePatterns colors seededRandom)
      /\ pureLayer (fun _ _ _ => generateFilters)
      /\ pureLayer generateOuterRing
      /\ pureLayer generateMiddleRings
      /\ pureLayer generateInnerPatterns
      /\ pureLayer generateDetailedPetals
      /\ pureLayer generateSacredGeometry
      /\ pureLayer generateDotPatterns
      /\ pureLayer generateCenterMotif)
  /\ (forall (p : jsstring) (b1 b2 : option BrainwaveData) (w1 w2 : World),
        fst (createSVGMandala p b1 w1) = fst (createSVGMandala p b2 w2))
  /\ (forall (p p' : jsstring) (b b' : option BrainwaveData) (w w' : World),
        extractColorsFromPrompt p = extractColorsFromPrompt p' ->
        fst (createSVGMandala p b w) = fst (createSVGMandala p' b' w')).
Proof.
  split; [reflexivity|].
  split.
  { repeat split; intros colors; eexists; intros style r w; reflexivity. }
  assert (H : forall p p' b b' w w',
    extractColorsFromPrompt p = extractColorsFromPrompt p' ->
    fst (createSVGMandala p b w) = fst (createSVGMandala p' b' w')).
  { intros p p' b b' w w' Hc.
    destruct (createSVGMandala_run (extractColorsFromPrompt p)) as [markup Hm].
    rewrite (Hm p b w eq_refl), (Hm p' b' w' (eq_sym Hc)). reflexivity. }
  split; [|exact H].
  intros p b1 b2 w1 w2. now apply H.
Qed.

(** C2. For fixed prompt and biometrics, two invocations of createSVGMandala
    give the same markup, run one after the other or in different worlds, and
    so two invocations of generateFallbackMandala give the same artifact: the
    composition is a function of its inputs, and all it leaves in the world is
    the cell of the generator of that invocation. *)
Theorem createSVGMandala_deterministic (p : jsstring) (b : option BrainwaveData) :
  (forall w : World, exists svg : jsstring,
     fst (composeTwice p b w) = Returned (svg, svg))
  /\ (forall w1 w2 : World,
        fst (createSVGMandala p b w1) = fst (createSVGMandala p b w2))
  /\ (forall w : World, exists m : GeneratedMandala,
        fst (fallbackTwice p b w) = Returned (m, m))
  /\ (forall w1 w2 : World,
        fst (generateFallbackMandala p b w1) = fst (generateFallbackMandala p b w2))
  /\ (forall w : World,
        snd (createSVGMandala p b w)
        = setHeap (heap w ++ [createSeedFromInput p b]) w).
Proof.
  destruct (createSVGMandala_run (extractColorsFromPrompt p)) as [markup Hm].
  assert (Hrun : forall w, createSVGMandala p b w
    = (Returned markup, setHeap (heap w ++ [createSeedFromInput p b]) w))
    by (intros w; now apply Hm).
  assert (Hfb : forall w, generateFallbackMandala p b w
    = (Returned
         {| imageUrl := js "data:image/svg+xml;base64," ++ Buffer_base64 markup;
            prompt := p;
            revisedPrompt :=
              Some (js "Fallback mandala generated locally with unique variations: "
                    ++ p) |},
       setHeap (heap w ++ [createSeedFromInput p b]) w)).
  { intros w. unfold generateFallbackMandala, bind. now rewrite Hrun. }
  split; [|split; [|split; [|split]]].
  - intros w. exists markup. unfold composeTwice, bind. now rewrite !Hrun.
  - intros w1 w2. now rewrite !Hrun.
  - intros w. eexists. unfold fallbackTwice, bind. rewrite !Hfb. reflexivity.
  - intros w1 w2. now rewrite !Hfb.
  - intros w. now rewrite Hrun.
Qed.

(** *** The fallback after failed attempts *)

Lemma generateFallbackMandala_run (p : jsstring) (b : option BrainwaveData)
  (w : World) :
  exists svg : jsstring,
    createSVGMandala p b w
    = (Returned svg, setHeap (heap w ++ [createSeedFromInput p b]) w)
    /\ generateFallbackMandala p b w
       = (Returned
            {| imageUrl := js "data:image/svg+xml;base64," ++ Buffer_base64 svg;
               prompt := p;
               revisedPrompt :=
                 Some (js "Fallback mandala generated locally with unique variations: "
                       ++ p) |},
          setHeap (heap w ++ [createSeedFromInput p b]) w).
Proof.
  destruct (createSVGMandala_returns p b w) as [svg H].
  exists svg. split; [exact H|].
  unfold generateFallbackMandala, bind. now rewrite H.
Qed.

(** C1, as amended. If both attempts at the remote image generator fail,
    generateMandalaImage throws nothing and returns the artifact of the local
    composer: its imageUrl is the data URI "data:image/svg+xml;base64,"
    followed by the encoded SVG, and its prompt field is the prompt it was
    given. If all three attempts at the remote prompt generator fail,
    generateMandalaPrompt returns the local fallback prompt, which is never
    empty. *)
Theorem fallback_after_failed_attempts :
  (forall (p : jsstring) (b : option BrainwaveData) (w w1 w2 : World)
          (e1 e2 : Error),
     imageAttempt (enhancedPromptOf p b) w = (Thrown e1, w1) ->
     imageAttempt (enhancedPromptOf p b) (afterSleep 2000 w1) = (Thrown e2, w2) ->
     exists svg : jsstring,
       generateMandalaImage p b w
       = (Returned
            {| imageUrl := js "data:image/svg+xml;base64," ++ Buffer_base64 svg;
               prompt := p;
               revisedPrompt :=
                 Some (js "Fallback mandala generated locally with unique variations: "
                       ++ p) |},
          setHeap (heap w2 ++ [createSeedFromInput p b]) w2))
  /\ (forall (o : MandalaGenerationOptions) (w w1 w2 w3 : World)
             (e1 e2 e3 : Error),
        promptAttempt o w = (Thrown e1, w1) ->
        promptAttempt o (afterSleep 2000 w1) = (Thrown e2, w2) ->
        promptAttempt o (afterSleep 4000 w2) = (Thrown e3, w3) ->
        generateMandalaPrompt o w = (Returned (getFallbackPrompt o), w3)
        /\ getFallbackPrompt o <> []).
Proof.
  split.
  - intros p b w w1 w2 e1 e2 H1 H2.
    destruct (generateFallbackMandala_run p b w2) as (svg & _ & Hfb).
    exists svg.
    unfold generateMandalaImage. cbv zeta. cbn [imageAttempts].
    rewrite (tryCatch_thrown _ _ _ _ _ H1).
    change (1 <? 2) with true. cbv iota. rewrite bind_sleep.
    rewrite (tryCatch_thrown _ _ _ _ _ H2).
    change (2 <? 2) with false. cbv iota. rewrite bind_ret.
    exact Hfb.
  - intros o w w1 w2 w3 e1 e2 e3 H1 H2 H3.
    split; [|apply getFallbackPrompt_nonempty].
    unfold generateMandalaPrompt. cbn [promptAttempts].
    rewrite (tryCatch_thrown _ _ _ _ _ H1).
    change (1 <? 3) with true. cbv iota. rewrite bind_sleep.
    change (2 ^ 1 * 1000) with 2000.
    rewrite (tryCatch_thrown _ _ _ _ _ H2).
    change (2 <? 3) with true. cbv iota. rewrite bind_sleep.
    change (2 ^ 2 * 1000) with 4000.
    rewrite (tryCatch_thrown _ _ _ _ _ H3).
    change (3 <? 3) with false. cbv iota. rewrite bind_ret.
    reflexivity.
Qed.

(** *** Further properties of the seed and the generator *)

Lemma hash_fold_range (str : jsstring) :
  forall h : Z, - 2 ^ 31 <= h < 2 ^ 31 ->
    - 2 ^ 31 <= fold_left (fun h c => toInt32 (h * 31 + Z.of_N c)) str h < 2 ^ 31.
Proof.
  induction str as [|c str IH]; intros h Hh; cbn [fold_left].
  - exact Hh.
  - apply IH, toInt32_range.
Qed.

(** X1. Every seed lies between 0 and 2^31, both included, so that the first
    step of the generator, seed * 9301 + 49297, stays below 2^53, where the
    arithmetic of doubles is exact. *)
Theorem createSeedFromInput_range (p : jsstring) (b : option BrainwaveData) :
  0 <= createSeedFromInput p b <= 2 ^ 31
  /\ createSeedFromInput p b * 9301 + 49297 < 2 ^ 53.
Proof.
  rewrite createSeedFromInput_fold. unfold deriveSeed.
  pose proof (hash_fold_range (p ++ biometricDigits b) 0) as H.
  assert (H0 : - 2 ^ 31 <= 0 < 2 ^ 31) by lia.
  specialize (H H0). lia.
Qed.

(** X2. The seed depends on the prompt and the biometrics only through the
    string they are joined into, without a separator: inputs that join into
    the same string get the same seed, and the digits may as well be part of
    the prompt. *)
Theorem createSeedFromInput_joined :
  (forall (p : jsstring) (b : option BrainwaveData),
     createSeedFromInput p b = createSeedFromInput (p ++ biometricDigits b) None)
  /\ (forall (p p' : jsstring) (b b' : option BrainwaveData),
        p ++ biometricDigits b = p' ++ biometricDigits b' ->
        createSeedFromInput p b = createSeedFromInput p' b').
Proof.
  split.
  - intros p b. rewrite !createSeedFromInput_fold. unfold deriveSeed.
    cbn [biometricDigits]. now rewrite app_nil_r.
  - intros p p' b b' H. rewrite !createSeedFromInput_fold. unfold deriveSeed.
    now rewrite H.
Qed.



(** *** Further properties of the layers *)

(** X4. The detailed petals are 8 motifs at the angles 0, 45, ..., 315, whatever
    the style and the generator passed; the total of the 8 steps of 45 degrees
    is 360. *)
Theorem generateDetailedPetals_structure (colors : Colors) (style : MandalaStyle)
  (r : option Closure) (w : World) :
  generateDetailedPetals colors style r w
  = (Returned (concat (map (petalMotif colors) (ringAngles 8))), w)
  /\ ringAngles 8 = [0; 45; 90; 135; 180; 225; 270; 315]%float
  /\ (360 / float_of_Z 8 * float_of_Z 8 = 360)%float.
Proof.
  split; [apply generateDetailedPetals_motifs|].
  split; vm_compute; reflexivity.
Qed.

(** X5. The dot field is the plain concatenation of exactly 52 dots, ring after
    ring from the innermost: 10 on radius 20, then 17 on radius 35, then 25 on
    radius 50. *)
Theorem generateDotPatterns_count (colors : Colors) (style : MandalaStyle)
  (r : option Closure) (w : World) :
  generateDotPatterns colors style r w
  = (Returned (concat (map (fun d => dotAt colors (fst d) (snd d)) dotFieldPlan)), w)
  /\ length dotFieldPlan = 52%nat
  /\ map fst dotFieldPlan = repeat 20 10 ++ repeat 35 17 ++ repeat 50 25.
Proof.
  split; [|split; vm_compute; reflexivity].
  rewrite generateDotPatterns_dots. unfold dotFieldPlan.
  cbn [map concat]. rewrite !app_nil_r, !map_app, !concat_app, !map_map.
  reflexivity.
Qed.

(** X6. extractColorsFromPrompt knows two palettes: the vivid one, with a
    gradient of 13 stops, exactly when the lower-cased prompt contains
    "vibrant" or "bright", and the default one, with 8 stops, otherwise; the
    centre is white in both. *)
Theorem extractColorsFromPrompt_palettes (p : jsstring) :
  (contains (toLowerCase p) (js "vibrant") \/ contains (toLowerCase p) (js "bright")
   -> extractColorsFromPrompt p = vividColors)
  /\ (~ (contains (toLowerCase p) (js "vibrant")
         \/ contains (toLowerCase p) (js "bright"))
      -> extractColorsFromPrompt p = defaultColors)
  /\ center (extractColorsFromPrompt p) = js "#ffffff"
  /\ (length (gradient (extractColorsFromPrompt p)) = 13%nat
      \/ length (gradient (extractColorsFromPrompt p)) = 8%nat).
Proof.
  rewrite <- !includes_spec, <- orb_true_iff.
  unfold extractColorsFromPrompt. cbv zeta.
  destruct (includes (toLowerCase p) (js "vibrant")
            || includes (toLowerCase p) (js "bright")).
  - split; [reflexivity|]. split; [intros H; now destruct H|].
    split; [reflexivity | left; reflexivity].
  - split; [discriminate|]. split; [reflexivity|].
    split; [reflexivity | right; reflexivity].
Qed.

(** X7. The composer has two outputs in all: one markup for the default
    palette and one for the vivid palette. The prompt selects between them by
    its palette keywords alone; the style that determineMandalaStyle finds has
    no influence on the markup. *)
Theorem createSVGMandala_two_markups :
  exists defaultMarkup vividMarkup : jsstring,
    forall (p : jsstring) (b : option BrainwaveData) (w : World),
      fst (createSVGMandala p b w)
      = Returned
          (if includes (toLowerCase p) (js "vibrant")
              || includes (toLowerCase p) (js "bright")
           then vividMarkup else defaultMarkup).
Proof.
  destruct (createSVGMandala_run defaultColors) as [md Hd].
  destruct (createSVGMandala_run vividColors) as [mv Hv].
  exists md, mv. intros p b w.
  destruct (includes (toLowerCase p) (js "vibrant")
            || includes (toLowerCase p) (js "bright")) eqn:E.
  - rewrite (Hv p b w); [reflexivity|].
    unfold extractColorsFromPrompt. cbv zeta. now rewrite E.
  - rewrite (Hd p b w); [reflexivity|].
    unfold extractColorsFromPrompt. cbv zeta. now rewrite E.
Qed.

(** *** The remote prompt generator *)

Lemma callGenerateContent_world (req : Request) (w : World) :
  snd (callGenerateContent req w) = afterRequest w.
Proof.
  unfold callGenerateContent, afterRequest.
  now destruct (generateContent w req).
Qed.



(** X8. generateMandalaPrompt returns the prompt of the first attempt that
    succeeds: the second attempt is made only after a failed first and a wait
    of 2000 ms, the third only after a failed second and a further 4000 ms,
    and the local fallback prompt only after three failures. *)
Theorem generateMandalaPrompt_first_success (o : MandalaGenerationOptions)
  (w : World) :
  (forall (s : jsstring) (w1 : World),
     promptAttempt o w = (Returned s, w1) ->
     generateMandalaPrompt o w = (Returned s, w1))
  /\ (forall (e1 : Error) (w1 : World) (s : jsstring) (w2 : World),
        promptAttempt o w = (Thrown e1, w1) ->
        promptAttempt o (afterSleep 2000 w1) = (Returned s, w2) ->
        generateMandalaPrompt o w = (Returned s, w2))
  /\ (forall (e1 e2 : Error) (w1 w2 : World) (s : jsstring) (w3 : World),
        promptAttempt o w = (Thrown e1, w1) ->
        promptAttempt o (afterSleep 2000 w1) = (Thrown e2, w2) ->
        promptAttempt o (afterSleep 4000 w2) = (Returned s, w3) ->
        generateMandalaPrompt o w = (Returned s, w3)).
Proof.
  unfold generateMandalaPrompt. cbn [promptAttempts].
  split; [|split].
  - intros s w1 H1. now rewrite (tryCatch_returned _ _ _ _ _ H1).
  - intros e1 w1 s w2 H1 H2.
    rewrite (tryCatch_thrown _ _ _ _ _ H1).
    change (1 <? 3) with true. cbv iota. rewrite bind_sleep.
    change (2 ^ 1 * 1000) with 2000.
    now rewrite (tryCatch_returned _ _ _ _ _ H2).
  - intros e1 e2 w1 w2 s w3 H1 H2 H3.
    rewrite (tryCatch_thrown _ _ _ _ _ H1).
    change (1 <? 3) with true. cbv iota. rewrite bind_sleep.
    change (2 ^ 1 * 1000) with 2000.
    rewrite (tryCatch_thrown _ _ _ _ _ H2).
    change (2 <? 3) with true. cbv iota. rewrite bind_sleep.
    change (2 ^ 2 * 1000) with 4000.
    now rewrite (tryCatch_returned _ _ _ _ _ H3).
Qed.


(** X10. When the remote service answers and the answer carries no usable
    prompt (the parsed prompt is missing or empty), generateMandalaPrompt returns
    the local fallback prompt at once: one request, no retry and no wait. *)
Theorem generateMandalaPrompt_unusable_answer (o : MandalaGenerationOptions)
  (w : World) (response : Response) (result : option jsstring) :
  generateContent w
    {| model := js "gemini-2.5-pro"; config := JsonPrompt systemPrompt;
       contents := userPrompt o |} = inr response ->
  JSON_parse_prompt
    (if truthy (responseText response) then default [] (responseText response)
     else js "{}") = inr result ->
  truthy result = false ->
  generateMandalaPrompt o w = (Returned (getFallbackPrompt o), afterRequest w).
Proof.
  intros Hremote Hparse Hresult.
  unfold generateMandalaPrompt. cbn [promptAttempts].
  apply tryCatch_returned.
  unfold promptAttempt, bind, callGenerateContent, ret.
  rewrite Hremote, Hparse, Hresult. reflexivity.
Qed.

(** *** The remote image generator *)

(** The loop over the parts leaves closures, requests, waits and directories
    alone and only adds files, each under the path it was given; it reports an
    image only if it had one already or has written a file. *)
Lemma processParts_effects (path : jsstring) (ps : list Part) :
  forall (st : bool * jsstring) (w : World),
    heap (snd (processParts path ps st w)) = heap w
    /\ requests (snd (processParts path ps st w)) = requests w
    /\ slept (snd (processParts path ps st w)) = slept w
    /\ dirs (snd (processParts path ps st w)) = dirs w
    /\ exists new : list (jsstring * jsstring),
         files (snd (processParts path ps st w)) = new ++ files w
         /\ Forall (fun f => fst f = path) new
         /\ forall (g' : bool) (rp' : jsstring),
              fst (processParts path ps st w) = Returned (g', rp') ->
              g' = true -> fst st = true \/ new <> [].
Proof.
  induction ps as [|part ps IH]; intros [g rp] w.
  - cbn [processParts ret fst snd]. repeat split.
    exists []. split; [reflexivity|]. split; [constructor|].
    intros g' rp' H Hg. injection H as <- <-. now left.
  - assert (Hpass : forall rp1 : jsstring,
      heap (snd (processParts path ps (g, rp1) w)) = heap w
      /\ requests (snd (processParts path ps (g, rp1) w)) = requests w
      /\ slept (snd (processParts path ps (g, rp1) w)) = slept w
      /\ dirs (snd (processParts path ps (g, rp1) w)) = dirs w
      /\ exists new : list (jsstring * jsstring),
           files (snd (processParts path ps (g, rp1) w)) = new ++ files w
           /\ Forall (fun f => fst f = path) new
           /\ forall (g' : bool) (rp' : jsstring),
                fst (processParts path ps (g, rp1) w) = Returned (g', rp') ->
                g' = true -> fst (g, rp) = true \/ new <> []).
    { intros rp1. exact (IH (g, rp1) w). }
    cbn [processParts].
    destruct (truthy (text part)); [apply Hpass|].
    destruct (inlineData part) as [d|]; [|apply Hpass].
    destruct (truthy (data d)); [|apply Hpass].
    rewrite bind_writeFileSync.
    destruct (writeFileSync_error w path) as [e|].
    + cbn [fst snd]. repeat split.
      exists []. split; [reflexivity|]. split; [constructor|].
      intros g' rp' H. discriminate.
    + cbv beta.
      match goal with
      | |- context [processParts path ps ?st1 ?w1] =>
          destruct (IH st1 w1) as (Hh & Hr & Hs & Hd & new & Hf & Hall & Hg)
      end.
      rewrite Hh, Hr, Hs, Hd. repeat split.
      exists (new ++ [(path, default [] (data d))]).
      rewrite Hf. cbn [files]. rewrite <- app_assoc. split; [reflexivity|].
      split.
      * apply Forall_app. split; [exact Hall | now constructor].
      * intros g' rp' _ _. right. now destruct new.
Qed.

Lemma attemptOutcome_thrown (ep : jsstring) (w w1 : World) (e : Error) :
  attemptOutcome ep w w1 (Thrown e, afterRequest w1).
Proof.
  unfold attemptOutcome. cbn [fst snd afterRequest heap slept requests dirs files].
  repeat split; try (now right).
  exists []. split; [reflexivity|]. split; [constructor|].
  intros m H. discriminate.
Qed.

(** From the request on (lines 225-268). *)
Lemma imageAttempt_request (ep : jsstring) (w w1 : World)
  (k : Response -> M GeneratedMandala) :
  (forall response : Response,
     k response
     = match candidates response with
       | Some (candidate :: _) =>
           match content candidate with
           | Some {| parts := Some ps |} =>
               st <- processParts (imagePathAt w) ps (false, []) ;;
               let '(imageGenerated, revisedPrompt) := st in
               if imageGenerated then
                 ret {| imageUrl :=
                          js "/attached_assets/"
                          ++ (js "mandala_" ++ intToString (Date_now w) ++ js ".png");
                        prompt := ep;
                        revisedPrompt :=
                          Some (if truthy (Some revisedPrompt) then revisedPrompt
                                else js "Gemini generated mandala: " ++ ep) |}
               else throw (js "No image data received from Gemini")
           | _ => throw (js "No content parts in Gemini response")
           end
       | _ => throw (js "No image generated from Gemini")
       end) ->
  forall req : Request,
    attemptOutcome ep w w1 (bind (callGenerateContent req) k w1).
Proof.
  intros Hk req. rewrite bind_callGenerateContent.
  destruct (generateContent w1 req) as [e|response];
    [apply attemptOutcome_thrown|].
  rewrite Hk.
  destruct (candidates response) as [[|candidate cs]|];
    [apply attemptOutcome_thrown | | apply attemptOutcome_thrown].
  destruct (content candidate) as [[[ps|]]|];
    [|apply attemptOutcome_thrown | apply attemptOutcome_thrown].
  unfold bind.
  match goal with
  | |- context [processParts ?path ?ps ?st ?w2] =>
      pose proof (processParts_effects path ps st w2)
        as (Hh & Hr & Hs & Hd & new & Hf & Hall & Hg);
      destruct (processParts path ps st w2) as [[[imageGenerated rp]|e] w3]
  end; cbn [fst snd] in *.
  - destruct imageGenerated; unfold attemptOutcome; cbn [fst snd ret throw].
    + split; [exact Hh|]. split; [exact Hs|]. split; [right; exact Hr|].
      split; [exact Hd|].
      exists new. split; [exact Hf|]. split; [exact Hall|].
      intros m H. injection H as <-.
      cbn [imageUrl prompt revisedPrompt].
      split; [reflexivity|]. split; [reflexivity|].
      split; [now destruct rp|]. split; [exact Hr|].
      destruct (Hg true rp eq_refl eq_refl) as [Hc|Hc];
        [discriminate | exact Hc].
    + split; [exact Hh|]. split; [exact Hs|]. split; [right; exact Hr|].
      split; [exact Hd|].
      exists new. split; [exact Hf|]. split; [exact Hall|].
      intros m H. discriminate.
  - unfold attemptOutcome; cbn [fst snd].
    split; [exact Hh|]. split; [exact Hs|]. split; [right; exact Hr|].
    split; [exact Hd|].
    exists new. split; [exact Hf|]. split; [exact Hall|].
    intros m H. discriminate.
Qed.

Lemma attemptOutcome_imageAttempt (ep : jsstring) (w : World) :
  ((path_dirname (imagePathAt w) ∈ dirs w)
   /\ attemptOutcome ep w w (imageAttempt ep w))
  \/ ((path_dirname (imagePathAt w) ∉ dirs w)
      /\ exists e : Error, imageAttempt ep w = (Thrown e, w))
  \/ ((path_dirname (imagePathAt w) ∉ dirs w)
      /\ attemptOutcome ep w
           {| heap := heap w; requests := requests w; slept := slept w;
              dirs := path_dirname (imagePathAt w) :: dirs w; files := files w |}
           (imageAttempt ep w)).
Proof.
  unfold imageAttempt. rewrite bind_now. cbv zeta.
  fold (imagePathAt w). rewrite bind_existsSync.
  destruct (bool_decide_reflect (path_dirname (imagePathAt w) ∈ dirs w))
    as [Hin|Hnin]; cbn [negb].
  - left. split; [exact Hin|]. rewrite bind_ret.
    apply imageAttempt_request. intros response. reflexivity.
  - right. rewrite bind_mkdirSync.
    destruct (mkdirSync_error w (path_dirname (imagePathAt w))) as [e|].
    + left. split; [exact Hnin|]. now exists e.
    + right. split; [exact Hnin|].
      apply imageAttempt_request. intros response. reflexivity.
Qed.

(** What one image attempt does, whether it returns or throws. *)
Lemma imageAttempt_effects (ep : jsstring) (w : World) :
  heap (snd (imageAttempt ep w)) = heap w
  /\ slept (snd (imageAttempt ep w)) = slept w
  /\ (requests (snd (imageAttempt ep w)) = requests w
      \/ requests (snd (imageAttempt ep w)) = S (requests w))
  /\ (dirs (snd (imageAttempt ep w)) = dirs w
      \/ (path_dirname (imagePathAt w) ∉ dirs w)
         /\ dirs (snd (imageAttempt ep w))
            = path_dirname (imagePathAt w) :: dirs w)
  /\ exists new : list (jsstring * jsstring),
       files (snd (imageAttempt ep w)) = new ++ files w
       /\ Forall (fun f => fst f = imagePathAt w) new
       /\ forall m : GeneratedMandala,
            fst (imageAttempt ep w) = Returned m ->
            imageUrl m
            = js "/attached_assets/" ++ js "mandala_"
              ++ intToString (Date_now w) ++ js ".png"
            /\ prompt m = ep
            /\ truthy (revisedPrompt m) = true
            /\ requests (snd (imageAttempt ep w)) = S (requests w)
            /\ new <> [].
Proof.
  destruct (attemptOutcome_imageAttempt ep w)
    as [[Hin H] | [[Hnin [e H]] | [Hnin H]]].
  - destruct H as (Hh & Hs & Hr & Hd & new & Hf & Hall & Hm).
    split; [exact Hh|]. split; [exact Hs|]. split; [exact Hr|].
    split; [left; exact Hd|]. exists new. split; [exact Hf|]. split; [exact Hall|]. exact Hm.
  - rewrite H. cbn [fst snd].
    split; [reflexivity|]. split; [reflexivity|]. split; [now left|].
    split; [now left|]. exists []. split; [reflexivity|].
    split; [constructor|]. intros m Hm. discriminate.
  - destruct H as (Hh & Hs & Hr & Hd & new & Hf & Hall & Hm).
    split; [exact Hh|]. split; [exact Hs|]. split; [exact Hr|].
    split; [right; split; [exact Hnin | exact Hd]|].
    exists new. split; [exact Hf|]. split; [exact Hall|]. exact Hm.
Qed.

(** X11. generateMandalaImage returns the artifact of the first attempt that
    succeeds: the second attempt is made only after a failed first and a wait
    of 2000 ms, and the local composer runs only after two failures. *)
Theorem generateMandalaImage_first_success (p : jsstring)
  (b : option BrainwaveData) (w : World) :
  (forall (m : GeneratedMandala) (w1 : World),
     imageAttempt (enhancedPromptOf p b) w = (Returned m, w1) ->
     generateMandalaImage p b w = (Returned m, w1))
  /\ (forall (e1 : Error) (w1 : World) (m : GeneratedMandala) (w2 : World),
        imageAttempt (enhancedPromptOf p b) w = (Thrown e1, w1) ->
        imageAttempt (enhancedPromptOf p b) (afterSleep 2000 w1) = (Returned m, w2) ->
        generateMandalaImage p b w = (Returned m, w2))
  /\ (forall (e1 e2 : Error) (w1 w2 : World),
        imageAttempt (enhancedPromptOf p b) w = (Thrown e1, w1) ->
        imageAttempt (enhancedPromptOf p b) (afterSleep 2000 w1) = (Thrown e2, w2) ->
        generateMandalaImage p b w = generateFallbackMandala p b w2).
Proof.
  unfold generateMandalaImage. cbv zeta. cbn [imageAttempts].
  split; [|split].
  - intros m w1 H1. now rewrite (tryCatch_returned _ _ _ _ _ H1).
  - intros e1 w1 m w2 H1 H2.
    rewrite (tryCatch_thrown _ _ _ _ _ H1).
    change (1 <? 2) with true. cbv iota. rewrite bind_sleep.
    now rewrite (tryCatch_returned _ _ _ _ _ H2).
  - intros e1 e2 w1 w2 H1 H2.
    rewrite (tryCatch_thrown _ _ _ _ _ H1).
    change (1 <? 2) with true. cbv iota. rewrite bind_sleep.
    rewrite (tryCatch_thrown _ _ _ _ _ H2).
    change (2 <? 2) with false. cbv iota. now rewrite bind_ret.
Qed.

(** X12. Whatever the remote service and the file system do, generateMandalaImage
    throws nothing and returns an artifact with a revised prompt. The artifact is
    either remote, a path /attached_assets/mandala_<timestamp>.png with the
    enhanced prompt, in which case a file has been written and no closure made;
    or local, a data URI with the prompt as given, made after a wait of 2000 ms.
    It makes at most two requests. *)
Theorem generateMandalaImage_total (p : jsstring) (b : option BrainwaveData)
  (w : World) :
  exists (m : GeneratedMandala) (w' : World),
    generateMandalaImage p b w = (Returned m, w')
    /\ truthy (revisedPrompt m) = true
    /\ (requests w' <= requests w + 2)%nat
    /\ (((exists timestamp : Z,
            imageUrl m
            = js "/attached_assets/" ++ js "mandala_" ++ intToString timestamp
              ++ js ".png")
         /\ prompt m = enhancedPromptOf p b
         /\ heap w' = heap w
         /\ (length (files w) < length (files w'))%nat
         /\ (slept w' = slept w \/ slept w' = slept w + 2000))
        \/ ((exists svg : jsstring,
               imageUrl m = js "data:image/svg+xml;base64," ++ Buffer_base64 svg)
            /\ prompt m = p
            /\ heap w' = heap w ++ [createSeedFromInput p b]
            /\ slept w' = slept w + 2000)).
Proof.
  pose proof (generateMandalaImage_first_success p b w) as F.
  set (ep := enhancedPromptOf p b) in *.
  pose proof (imageAttempt_effects ep w)
    as (Hh1 & Hs1 & Hr1 & _ & new1 & Hf1 & _ & Hm1).
  destruct (imageAttempt ep w) as [[m|e1] w1] eqn:E1;
    cbn [fst snd] in Hh1, Hs1, Hr1, Hf1, Hm1.
  { exists m, w1. split; [now apply (proj1 F)|].
    destruct (Hm1 m eq_refl) as (Hu & Hp & Ht & Hr & Hn).
    split; [exact Ht|]. split; [lia|]. left.
    split; [now exists (Date_now w)|]. split; [exact Hp|]. split; [exact Hh1|].
    split; [|now left].
    rewrite Hf1, length_app. destruct new1; [congruence | cbn; lia]. }
  pose proof (imageAttempt_effects ep (afterSleep 2000 w1))
    as (Hh2 & Hs2 & Hr2 & _ & new2 & Hf2 & _ & Hm2).
  destruct (imageAttempt ep (afterSleep 2000 w1)) as [[m|e2] w2] eqn:E2;
    cbn [fst snd afterSleep sleep heap slept requests files]
      in Hh2, Hs2, Hr2, Hf2, Hm2.
  { exists m, w2. split; [now apply (proj1 (proj2 F) e1 w1)|].
    destruct (Hm2 m eq_refl) as (Hu & Hp & Ht & Hr & Hn).
    split; [exact Ht|]. split; [lia|]. left.
    split; [now exists (Date_now (afterSleep 2000 w1))|].
    split; [exact Hp|]. split; [congruence|].
    split; [|right; lia].
    rewrite Hf2, Hf1, !length_app. destruct new2; [congruence | cbn; lia]. }
  destruct (generateFallbackMandala_run p b w2) as (svg & _ & Hfb).
  eexists. eexists.
  split; [rewrite (proj2 (proj2 F) e1 e2 w1 w2 eq_refl E2); exact Hfb|].
  cbn [revisedPrompt imageUrl prompt truthy setHeap heap slept requests].
  split; [reflexivity|]. split; [lia|]. right.
  split; [now exists svg|]. split; [reflexivity|].
  split; [congruence | lia].
Qed.

(** X13. The directories stay free of duplicates: an attempt creates the output
    directory only when it is not there yet. *)
Theorem generateMandalaImage_dirs_NoDup (p : jsstring) (b : option BrainwaveData)
  (w : World) :
  NoDup (dirs w) -> NoDup (dirs (snd (generateMandalaImage p b w))).
Proof.
  intros Hnd.
  assert (Hstep : forall (ep : jsstring) (w0 : World),
    NoDup (dirs w0) -> NoDup (dirs (snd (imageAttempt ep w0)))).
  { intros ep w0 H0.
    pose proof (imageAttempt_effects ep w0) as (_ & _ & _ & Hd & _).
    destruct Hd as [Hd | [Hnin Hd]]; rewrite Hd; [exact H0|].
    now apply NoDup_cons. }
  pose proof (generateMandalaImage_first_success p b w) as F.
  set (ep := enhancedPromptOf p b) in *.
  pose proof (Hstep ep w Hnd) as H1.
  destruct (imageAttempt ep w) as [[m|e1] w1] eqn:E1; cbn [snd] in H1.
  { now rewrite (proj1 F m w1 eq_refl). }
  assert (H1' : NoDup (dirs (afterSleep 2000 w1))) by exact H1.
  pose proof (Hstep ep (afterSleep 2000 w1) H1') as H2.
  destruct (imageAttempt ep (afterSleep 2000 w1)) as [[m|e2] w2] eqn:E2;
    cbn [snd] in H2.
  { now rewrite (proj1 (proj2 F) e1 w1 m w2 eq_refl E2). }
  rewrite (proj2 (proj2 F) e1 e2 w1 w2 eq_refl E2).
  destruct (generateFallbackMandala_run p b w2) as (svg & _ & Hfb).
  rewrite Hfb. exact H2.
Qed.

(** X14. When the remote service rejects every request, generateMandalaImage
    returns the artifact of the local composer after a wait of 2000 ms, and no
    file has been written. *)
Theorem generateMandalaImage_remote_down (p : jsstring) (b : option BrainwaveData)
  (w : World) :
  (forall (w0 : World) (req : Request), exists e : Error,
     generateContent w0 req = inl e) ->
  exists (svg : jsstring) (w' : World),
    generateMandalaImage p b w
    = (Returned
         {| imageUrl := js "data:image/svg+xml;base64," ++ Buffer_base64 svg;
            prompt := p;
            revisedPrompt :=
              Some (js "Fallback mandala generated locally with unique variations: "
                    ++ p) |}, w')
    /\ files w' = files w
    /\ slept w' = slept w + 2000
    /\ heap w' = heap w ++ [createSeedFromInput p b].
Proof.
  intros Hdown.
  assert (Hfail : forall (ep : jsstring) (w0 : World), exists (e : Error) (w1 : World),
    imageAttempt ep w0 = (Thrown e, w1)
    /\ files w1 = files w0 /\ slept w1 = slept w0 /\ heap w1 = heap w0).
  { intros ep w0. unfold imageAttempt. rewrite bind_now. cbv zeta.
    rewrite bind_existsSync.
    destruct (bool_decide _); cbn [negb].
    - rewrite bind_ret, bind_callGenerateContent.
      match goal with |- context [generateContent ?w1 ?req] =>
        destruct (Hdown w1 req) as [e ->] end.
      now exists e, (afterRequest w0).
    - rewrite bind_mkdirSync.
      destruct (mkdirSync_error _ _) as [e|].
      + now exists e, w0.
      + rewrite bind_callGenerateContent.
        match goal with |- context [generateContent ?w1 ?req] =>
          destruct (Hdown w1 req) as [e ->] end.
        eexists. eexists. split; [reflexivity|]. now repeat split. }
  destruct (generateMandalaImage_first_success p b w) as (_ & _ & F3).
  destruct (Hfail (enhancedPromptOf p b) w) as (e1 & w1 & E1 & Hf1 & Hs1 & Hh1).
  destruct (Hfail (enhancedPromptOf p b) (afterSleep 2000 w1))
    as (e2 & w2 & E2 & Hf2 & Hs2 & Hh2).
  cbn [afterSleep sleep snd files slept heap] in Hf2, Hs2, Hh2.
  destruct (generateFallbackMandala_run p b w2) as (svg & _ & Hfb).
  exists svg. eexists. split; [rewrite (F3 e1 e2 w1 w2 E1 E2); exact Hfb|].
  cbn [setHeap files slept heap].
  split; [congruence|]. split; [lia | congruence].
Qed.

(** X15. Parts that carry text are read as text: the loop over the parts writes
    no file for them, even when they carry image data as well, and keeps the
    text of the last one as the revised prompt. *)
Theorem processParts_text_only (path : jsstring) (ps : list Part) :
  Forall (fun part => truthy (text part) = true) ps ->
  forall (g : bool) (rp : jsstring) (w : World),
    processParts path ps (g, rp) w
    = (Returned (g, default rp (last (map (fun part => default [] (text part)) ps))),
       w).
Proof.
  induction 1 as [|part ps Hpart Hps IH]; intros g rp w.
  - reflexivity.
  - cbn [processParts]. rewrite Hpart, IH. cbn [map].
    rewrite last_cons.
    now destruct (last (map (fun part0 => default [] (text part0)) ps)).
Qed.

(** X16. healthCheck throws nothing and makes exactly one request; it answers
    true exactly when the service responds with a text that is not empty. *)
Theorem healthCheck_spec (w : World) :
  exists ok : bool,
    healthCheck w = (Returned ok, afterRequest w)
    /\ (ok = true <->
        exists response : Response,
          generateContent w
            {| model := js "gemini-2.5-flash"; config := NoConfig;
               contents := js "Hello, respond with just 'OK'" |} = inr response
          /\ truthy (responseText response) = true).
Proof.
  unfold healthCheck, tryCatch. rewrite bind_callGenerateContent.
  destruct (generateContent w _) as [e|response] eqn:E.
  - exists false. split; [reflexivity|]. split; [discriminate|].
    intros (r & Hr & _). discriminate.
  - exists (truthy (responseText response)). split; [reflexivity|]. split.
    + intros H. now exists response.
    + intros (r & Hr & Ht). now injection Hr as ->.
Qed.

(** *** More on the fallback prompt *)

Lemma contains_app_l (a b pat : jsstring) : contains a pat -> contains (a ++ b) pat.
Proof.
  intros (pre & post & ->). exists pre, (post ++ b). now rewrite <- !app_assoc.
Qed.

Lemma contains_app_r (a b pat : jsstring) : contains b pat -> contains (a ++ b) pat.
Proof.
  intros (pre & post & ->). exists (a ++ pre), post. now rewrite <- !app_assoc.
Qed.

Lemma contains_self (pat : jsstring) : contains pat pat.
Proof. exists [], []. now rewrite app_nil_r. Qed.

(** X17. For a transcript of more than 5 code units, a theme leaves its sentence
    in the fallback prompt whenever its flag is set, and also whenever one of
    its two keywords occurs anywhere in the lower-cased transcript, inside a
    longer word or not. *)
Theorem getFallbackPrompt_theme_sentences (o : MandalaGenerationOptions)
  (t : jsstring) :
  voiceTranscript o = Some t -> (5 < length t)%nat ->
  let themes := extractThemesFromVoice (Some t) in
  let lower := toLowerCase t in
  let fallback := getFallbackPrompt o in
  (peace themes = true \/ contains lower (js "peace") \/ contains lower (js "calm")
   -> contains fallback peaceSentence)
  /\ (love themes = true \/ contains lower (js "love") \/ contains lower (js "heart")
      -> contains fallback loveSentence)
  /\ (strength themes = true \/ contains lower (js "strength")
      \/ contains lower (js "power")
      -> contains fallback strengthSentence)
  /\ (growth themes = true \/ contains lower (js "growth")
      \/ contains lower (js "change")
      -> contains fallback growthSentence)
  /\ (gratitude themes = true \/ contains lower (js "grateful")
      \/ contains lower (js "thank")
      -> contains fallback gratitudeSentence).
Proof.
  intros Ht Hlen themes lower fallback. subst fallback.
  rewrite getFallbackPrompt_parts, Ht. unfold themeBlock.
  assert (E : (5 <? length t)%nat = true) by now apply Nat.ltb_lt.
  rewrite E. cbv zeta. fold themes. fold lower.
  rewrite <- !includes_spec.
  assert (Hcond : forall flag i1 i2 : bool,
    flag = true \/ i1 = true \/ i2 = true -> flag || i1 || i2 = true).
  { intros [|] [|] [|] H; try reflexivity. destruct H as [H|[H|H]]; discriminate. }
  repeat split; intros H; apply Hcond in H; rewrite H;
    apply includes_spec, contains_app_r, contains_app_l.
  - apply contains_app_l, contains_self.
  - apply contains_app_r, contains_app_l, contains_self.
  - apply contains_app_r, contains_app_r, contains_app_l, contains_self.
  - apply contains_app_r, contains_app_r, contains_app_r, contains_app_l,
      contains_self.
  - apply contains_app_r, contains_app_r, contains_app_r, contains_app_r,
      contains_self.
Qed.

Lemma themeBlock_chosen (vt : option jsstring) :
  exists chosen : list jsstring,
    sublist chosen themeSentences /\ themeBlock vt = concat chosen.
Proof.
  unfold themeBlock.
  destruct vt as [t|];
    [|exists []; split; [apply sublist_nil_l | reflexivity]].
  destruct (5 <? length t)%nat;
    [|exists []; split; [apply sublist_nil_l | reflexivity]].
  cbv zeta.
  set (c1 := _ || _ || _). set (c2 := _ || _ || _). set (c3 := _ || _ || _).
  set (c4 := _ || _ || _). set (c5 := _ || _ || _).
  exists ((if c1 then [peaceSentence] else [])
          ++ (if c2 then [loveSentence] else [])
          ++ (if c3 then [strengthSentence] else [])
          ++ (if c4 then [growthSentence] else [])
          ++ (if c5 then [gratitudeSentence] else [])).
  split.
  - unfold themeSentences.
    destruct c1, c2, c3, c4, c5; cbn [app];
      repeat first [ apply sublist_nil_l | apply sublist_skip; [] | apply sublist_cons
                   | apply sublist_skip ].
  - destruct c1, c2, c3, c4, c5; cbn [app concat]; now rewrite ?app_nil_r.
Qed.

Lemma chosen_Forall (P : jsstring -> Prop) (chosen : list jsstring) :
  Forall P themeSentences -> sublist chosen themeSentences -> Forall P chosen.
Proof.
  intros Hall Hsub. apply Forall_forall. intros s Hs.
  rewrite Forall_forall in Hall. apply Hall.
  eapply elem_of_sublist; [exact Hs | exact Hsub].
Qed.

Lemma promptHeadOf_ascii :
  forallb (fun a70 => forallb (fun a30 => forallb (fun m70 => forallb (fun m30 =>
    forallb (fun cp => forallb isAscii (promptHeadOf a70 a30 m70 m30 cp))
      allColorPalettes)
    [true; false]) [true; false]) [true; false]) [true; false] = true.
Proof. vm_compute. reflexivity. Qed.

Lemma getFallbackPrompt_ascii (o : MandalaGenerationOptions) :
  forallb isAscii (getFallbackPrompt o) = true.
Proof.
  rewrite getFallbackPrompt_parts, !forallb_app.
  destruct (themeBlock_chosen (voiceTranscript o)) as (chosen & Hsub & ->).
  apply andb_true_iff. split; [|apply andb_true_iff; split].
  - unfold promptHead.
    pose proof promptHeadOf_ascii as H.
    apply forallb_bool with (b := attention (brainwaveData o) >? 70) in H.
    apply forallb_bool with (b := attention (brainwaveData o) <? 30) in H.
    apply forallb_bool with (b := meditation (brainwaveData o) >? 70) in H.
    apply forallb_bool with (b := meditation (brainwaveData o) <? 30) in H.
    now apply forallb_allColorPalettes with (c := colorPalette o) in H.
  - assert (Hall : Forall (fun s => forallb isAscii s = true) themeSentences).
    { unfold themeSentences. repeat constructor; vm_compute; reflexivity. }
    pose proof (chosen_Forall _ chosen Hall Hsub) as Hch.
    clear Hsub Hall. induction Hch as [|s chosen Hs _ IH]; [reflexivity|].
    cbn [concat]. rewrite forallb_app, Hs. exact IH.
  - unfold promptTail. destruct (style o) as [[]|]; vm_compute; reflexivity.
Qed.

(** X18. The fallback prompt is always made in the same order: the fixed
    opening with the attention, meditation and colour sentences, then the theme
    sentences that apply, in the order peace, love, strength, growth,
    gratitude, then the design aesthetic and the three closing sentences. It
    keeps nothing of the transcript's own words, and is all Basic Latin. *)
Theorem getFallbackPrompt_structure (o : MandalaGenerationOptions) :
  getFallbackPrompt o
  = promptHead (brainwaveData o) (colorPalette o)
    ++ themeBlock (voiceTranscript o) ++ promptTail (style o)
  /\ (exists chosen : list jsstring,
        sublist chosen themeSentences
        /\ themeBlock (voiceTranscript o) = concat chosen)
  /\ forallb isAscii (getFallbackPrompt o) = true.
Proof.
  split; [apply getFallbackPrompt_parts|].
  split; [apply themeBlock_chosen | apply getFallbackPrompt_ascii].
Qed.

(** *** The fallback prompt in the composer *)

(** An occurrence of a pattern in a concatenation lies in one of the two parts
    when the first part ends in a code unit that the pattern does not have. *)
Lemma contains_app_separated (a b pat : jsstring) (c : N) :
  last a = Some c -> c ∉ pat ->
  contains (a ++ b) pat <-> contains a pat \/ contains b pat.
Proof.
  intros Hlast Hc. split.
  - intros (pre & post & H).
    apply app_eq_app in H as [k [[Ha Hb] | [Hpre Hb]]].
    + symmetry in Hb. apply app_eq_app in Hb as [k' [[Hk Hpost] | [Hpat Hb']]].
      * left. exists pre, k'. now rewrite Ha, Hk.
      * destruct k as [|x k].
        -- right. exists [], post. cbn [app] in Hpat. now rewrite Hb', <- Hpat.
        -- exfalso. apply Hc.
           rewrite Ha, last_app in Hlast.
           destruct (last (x :: k)) as [y|] eqn:El;
             [|now apply last_None in El].
           injection Hlast as <-. rewrite Hpat.
           apply elem_of_app. left. now apply last_Some_elem_of.
    + right. exists k, post. exact Hb.
  - intros [H|H]; [now apply contains_app_l | now apply contains_app_r].
Qed.

Lemma includes_app_separated (a b pat : jsstring) (c : N) :
  last a = Some c -> c ∉ pat ->
  includes (a ++ b) pat = includes a pat || includes b pat.
Proof.
  intros Hlast Hc. apply eq_true_iff_eq.
  rewrite orb_true_iff, !includes_spec.
  now apply contains_app_separated with (c := c).
Qed.

Lemma includes_concat_separated (pat : jsstring) (c : N) (chosen : list jsstring)
  (rest : jsstring) :
  c ∉ pat ->
  Forall (fun s => last s = Some c /\ includes s pat = false) chosen ->
  includes (concat chosen ++ rest) pat = includes rest pat.
Proof.
  intros Hc Hall. induction Hall as [|s chosen [Hl Hs] _ IH]; [reflexivity|].
  cbn [concat]. rewrite <- app_assoc.
  now rewrite (includes_app_separated _ _ _ c Hl Hc), Hs, IH.
Qed.

(** The head of every fallback prompt ends in a space, holds "dot", and holds
    "vibrant" exactly when [vividHead] says so, and never "bright": checked on
    each of the 80 heads, lower-cased. *)
Lemma promptHeadOf_keywords :
  forallb (fun a70 => forallb (fun a30 => forallb (fun m70 => forallb (fun m30 =>
    forallb (fun cp =>
      let lower := map lowerUnit (promptHeadOf a70 a30 m70 m30 cp) in
      bool_decide (last lower = Some 32%N)
      && includes lower (js "dot")
      && Bool.eqb (includes lower (js "vibrant")) (vividHead m70 m30 cp)
      && negb (includes lower (js "bright")))
      allColorPalettes)
    [true; false]) [true; false]) [true; false]) [true; false] = true.
Proof. vm_compute. reflexivity. Qed.

Lemma themeSentences_keywords :
  Forall (fun s => last (map lowerUnit s) = Some 32%N
                   /\ includes (map lowerUnit s) (js "vibrant") = false)
    themeSentences
  /\ Forall (fun s => last (map lowerUnit s) = Some 32%N
                      /\ includes (map lowerUnit s) (js "bright") = false)
       themeSentences.
Proof.
  unfold themeSentences.
  split; repeat constructor; vm_compute; reflexivity.
Qed.

Lemma promptTail_keywords (st : option Style) :
  includes (map lowerUnit (promptTail st)) (js "vibrant") = false
  /\ includes (map lowerUnit (promptTail st)) (js "bright") = false.
Proof. destruct st as [[]|]; split; vm_compute; reflexivity. Qed.

Lemma Forall_map_lower (P : jsstring -> Prop) (l : list jsstring) :
  Forall (fun s => P (map lowerUnit s)) l -> Forall P (map (map lowerUnit) l).
Proof. intros H. now apply Forall_fmap. Qed.

Lemma map_lower_concat (l : list jsstring) :
  map lowerUnit (concat l) = concat (map (map lowerUnit) l).
Proof.
  induction l as [|s l IH]; [reflexivity|].
  cbn [concat map]. now rewrite map_app, IH.
Qed.

(** X19. Fed to the local composer, a fallback prompt is classified as a dot
    painting, whatever the options; and it takes the vivid palette exactly when
    the options name the vibrant colour palette, or none, or the meditation
    level is below 30. The warm, cool and monochrome palettes therefore all
    give the default palette of the composer. *)
Theorem fallback_prompt_in_composer (o : MandalaGenerationOptions) :
  determineMandalaStyle (getFallbackPrompt o) = dotpainting
  /\ extractColorsFromPrompt (getFallbackPrompt o)
     = if vividHead (meditation (brainwaveData o) >? 70)
            (meditation (brainwaveData o) <? 30) (colorPalette o)
       then vividColors else defaultColors.
Proof using toLowerCase_ascii.
  pose proof promptHeadOf_keywords as H.
  apply forallb_bool with (b := attention (brainwaveData o) >? 70) in H.
  apply forallb_bool with (b := attention (brainwaveData o) <? 30) in H.
  apply forallb_bool with (b := meditation (brainwaveData o) >? 70) in H.
  apply forallb_bool with (b := meditation (brainwaveData o) <? 30) in H.
  apply forallb_allColorPalettes with (c := colorPalette o) in H.
  cbv zeta in H. fold (promptHead (brainwaveData o) (colorPalette o)) in H.
  rewrite !andb_true_iff in H. destruct H as [[[Hlast Hdot] Hvib] Hbr].
  apply bool_decide_eq_true in Hlast. apply Bool.eqb_prop in Hvib.
  apply negb_true_iff in Hbr.
  destruct (themeBlock_chosen (voiceTranscript o)) as (chosen & Hsub & Hblock).
  destruct themeSentences_keywords as [Tvib Tbr].
  apply (fun H => chosen_Forall _ chosen H Hsub) in Tvib.
  apply (fun H => chosen_Forall _ chosen H Hsub) in Tbr.
  apply (Forall_map_lower
           (fun s => last s = Some 32%N /\ includes s (js "vibrant") = false))
    in Tvib.
  apply (Forall_map_lower
           (fun s => last s = Some 32%N /\ includes s (js "bright") = false))
    in Tbr.
  destruct (promptTail_keywords (style o)) as [Lvib Lbr].
  assert (Hlower : toLowerCase (getFallbackPrompt o)
    = map lowerUnit (promptHead (brainwaveData o) (colorPalette o))
      ++ concat (map (map lowerUnit) chosen)
      ++ map lowerUnit (promptTail (style o))).
  { rewrite toLowerCase_ascii by apply getFallbackPrompt_ascii.
    rewrite getFallbackPrompt_parts, Hblock, !map_app, map_lower_concat.
    reflexivity. }
  assert (Hsp1 : 32%N ∉ js "vibrant").
  { intros Hin. apply list_elem_of_In in Hin. vm_compute in Hin.
    repeat (destruct Hin as [Hin|Hin]; [discriminate|]). exact Hin. }
  assert (Hsp2 : 32%N ∉ js "bright").
  { intros Hin. apply list_elem_of_In in Hin. vm_compute in Hin.
    repeat (destruct Hin as [Hin|Hin]; [discriminate|]). exact Hin. }
  split.
  - unfold determineMandalaStyle. cbv zeta. rewrite Hlower.
    assert (Hd : includes
      (map lowerUnit (promptHead (brainwaveData o) (colorPalette o))
       ++ concat (map (map lowerUnit) chosen)
       ++ map lowerUnit (promptTail (style o))) (js "dot") = true)
      by (apply includes_spec, contains_app_l, includes_spec, Hdot).
    now rewrite Hd.
  - unfold extractColorsFromPrompt. cbv zeta. rewrite Hlower.
    rewrite (includes_app_separated _ _ _ 32%N Hlast Hsp1).
    rewrite (includes_app_separated _ _ _ 32%N Hlast Hsp2).
    rewrite (includes_concat_separated _ 32%N _ _ Hsp1 Tvib).
    rewrite (includes_concat_separated _ 32%N _ _ Hsp2 Tbr).
    rewrite Hvib, Hbr, Lvib, Lbr, !orb_false_r.
    reflexivity.
Qed.

(** *** Answers without an image *)

Lemma processParts_imageless (path : jsstring) (ps : list Part) :
  forallb imagelessPart ps = true ->
  forall (st : bool * jsstring) (w : World), exists rp' : jsstring,
    processParts path ps st w = (Returned (fst st, rp'), w).
Proof.
  induction ps as [|part ps IH]; intros Hps [g rp] w.
  - now exists rp.
  - cbn [forallb] in Hps. apply andb_true_iff in Hps as [Hpart Hps].
    cbn [processParts]. unfold imagelessPart in Hpart.
    destruct (truthy (text part));
      [apply (IH Hps (g, default [] (text part)))|].
    destruct (inlineData part) as [d|]; [|apply (IH Hps (g, rp))].
    cbn [orb] in Hpart. apply negb_true_iff in Hpart. rewrite Hpart.
    apply (IH Hps (g, rp)).
Qed.

(** X20. An answer without an image counts as a failure: when the remote
    service answers every request with a response from which no image can be
    taken, generateMandalaImage returns the artifact of the local composer
    after a wait of 2000 ms, and no file has been written. *)
Theorem generateMandalaImage_imageless (p : jsstring) (b : option BrainwaveData)
  (w : World) :
  (forall (w0 : World) (req : Request), exists response : Response,
     generateContent w0 req = inr response
     /\ imagelessResponse response = true) ->
  exists (svg : jsstring) (w' : World),
    generateMandalaImage p b w
    = (Returned
         {| imageUrl := js "data:image/svg+xml;base64," ++ Buffer_base64 svg;
            prompt := p;
            revisedPrompt :=
              Some (js "Fallback mandala generated locally with unique variations: "
                    ++ p) |}, w')
    /\ files w' = files w
    /\ slept w' = slept w + 2000
    /\ heap w' = heap w ++ [createSeedFromInput p b].
Proof.
  intros Hless.
  assert (Hrest : forall (path ep filename : jsstring) (w1 : World),
    exists (e : Error) (w2 : World),
      (response <- callGenerateContent
         {| model := js "gemini-2.0-flash-preview-image-generation";
            config := TextAndImage; contents := ep |} ;;
       match candidates response with
       | Some (candidate :: _) =>
           match content candidate with
           | Some {| parts := Some ps |} =>
               st <- processParts path ps (false, []) ;;
               let '(imageGenerated, revisedPrompt) := st in
               if imageGenerated then
                 ret {| imageUrl := js "/attached_assets/" ++ filename;
                        prompt := ep;
                        revisedPrompt :=
                          Some (if truthy (Some revisedPrompt) then revisedPrompt
                                else js "Gemini generated mandala: " ++ ep) |}
               else throw (js "No image data received from Gemini")
           | _ => throw (js "No content parts in Gemini response")
           end
       | _ => throw (js "No image generated from Gemini")
       end) w1 = (Thrown e, w2)
      /\ files w2 = files w1 /\ slept w2 = slept w1 /\ heap w2 = heap w1).
  { intros path ep filename w1. rewrite bind_callGenerateContent.
    match goal with |- context [generateContent ?w0 ?req] =>
      destruct (Hless w0 req) as (response & -> & Hr) end.
    unfold imagelessResponse in Hr.
    destruct (candidates response) as [[|candidate cs]|];
      [eexists; eexists; split; [reflexivity | now repeat split] | |
       eexists; eexists; split; [reflexivity | now repeat split]].
    destruct (content candidate) as [[[ps|]]|];
      [| eexists; eexists; split; [reflexivity | now repeat split]
       | eexists; eexists; split; [reflexivity | now repeat split]].
    unfold bind.
    match goal with |- context [processParts ?pa ?ps0 ?st ?w0] =>
      destruct (processParts_imageless pa ps0 Hr st w0) as [rp' ->] end.
    eexists; eexists; split; [reflexivity | now repeat split]. }
  assert (Hfail : forall (ep : jsstring) (w0 : World), exists (e : Error) (w1 : World),
    imageAttempt ep w0 = (Thrown e, w1)
    /\ files w1 = files w0 /\ slept w1 = slept w0 /\ heap w1 = heap w0).
  { intros ep w0. unfold imageAttempt. rewrite bind_now. cbv zeta.
    rewrite bind_existsSync.
    destruct (bool_decide _); cbn [negb].
    - rewrite bind_ret. apply Hrest.
    - rewrite bind_mkdirSync.
      destruct (mkdirSync_error _ _) as [e|].
      + now exists e, w0.
      + cbv beta.
        edestruct Hrest as (e & w2 & H & Hf & Hs & Hh).
        exists e, w2. split; [exact H|]. now repeat split. }
  pose proof (generateMandalaImage_first_success p b w) as F.
  destruct (Hfail (enhancedPromptOf p b) w) as (e1 & w1 & E1 & Hf1 & Hs1 & Hh1).
  destruct (Hfail (enhancedPromptOf p b) (afterSleep 2000 w1))
    as (e2 & w2 & E2 & Hf2 & Hs2 & Hh2).
  cbn [afterSleep sleep snd files slept heap] in Hf2, Hs2, Hh2.
  destruct (generateFallbackMandala_run p b w2) as (svg & _ & Hfb).
  exists svg. eexists.
  split; [rewrite (proj2 (proj2 F) e1 e2 w1 w2 E1 E2); exact Hfb|].
  cbn [setHeap files slept heap].
  split; [congruence|]. split; [lia | congruence].
Qed.

(** *** Letter case *)

(** X21. On Basic Latin text the keyword matching ignores letter case: two
    texts that differ in the case of their letters only get the same theme
    flags, the same style and the same palette. *)
Theorem keyword_matching_ignores_case (t t' : jsstring) :
  forallb isAscii t = true -> forallb isAscii t' = true ->
  map lowerUnit t = map lowerUnit t' ->
  extractThemesFromVoice (Some t) = extractThemesFromVoice (Some t')
  /\ determineMandalaStyle t = determineMandalaStyle t'
  /\ extractColorsFromPrompt t = extractColorsFromPrompt t'.
Proof using toLowerCase_ascii.
  intros Ha Ha' Heq.
  assert (Hl : toLowerCase t = toLowerCase t')
    by now rewrite !toLowerCase_ascii, Heq.
  split; [|split].
  - destruct t as [|c t], t' as [|c' t']; try discriminate; [reflexivity|].
    cbn [extractThemesFromVoice]. now rewrite Hl.
  - unfold determineMandalaStyle. now rewrite Hl.
  - unfold extractColorsFromPrompt. now rewrite Hl.
Qed.

End GeminiService.

(** ** Instances in the sample environment *)

Lemma asciiLowerCase_ascii (s : jsstring) :
  forallb isAscii s = true -> asciiLowerCase s = map lowerUnit s.
Proof. intros _. reflexivity. Defined.

(** C1 as the specification states it fails: with an empty prompt and a remote
    service that rejects both requests, generateMandalaImage returns an
    artifact whose prompt field is empty. *)
Lemma generateMandalaImage_empty_prompt :
  exists (m : GeneratedMandala) (w : World),
    generateMandalaImage asciiLowerCase sampleFloatToString sampleCos sampleSin
      sampleBase64 serviceUnavailable sampleClock sampleCwd samplePathResolve
      samplePathDirname noFault noFault [] None emptyWorld
    = (Returned m, w)
    /\ startsWith (js "data:image/svg+xml;base64,") (imageUrl m) = true
    /\ prompt m = []
    /\ requests w = 2%nat.
Proof.
  eexists. eexists. split; [vm_compute; reflexivity|].
  split; [vm_compute; reflexivity|]. split; reflexivity.
Qed.

Lemma fallback_after_failed_attempts_witness :
  (exists (m : GeneratedMandala) (w : World),
     generateMandalaImage asciiLowerCase sampleFloatToString sampleCos sampleSin
       sampleBase64 serviceUnavailable sampleClock sampleCwd samplePathResolve
       samplePathDirname noFault noFault (js "calm ocean")
       (Some sampleBrainwaveData) emptyWorld
     = (Returned m, w)
     /\ prompt m = js "calm ocean")
  /\ exists w : World,
       generateMandalaPrompt asciiLowerCase sampleParsePrompt serviceUnavailable
         {| voiceTranscript := Some (js "I feel calm");
            brainwaveData := sampleBrainwaveData;
            style := None; colorPalette := None |} emptyWorld
       = (Returned
            (getFallbackPrompt asciiLowerCase
               {| voiceTranscript := Some (js "I feel calm");
                  brainwaveData := sampleBrainwaveData;
                  style := None; colorPalette := None |}), w).
Proof.
  pose proof (fallback_after_failed_attempts asciiLowerCase sampleFloatToString
    sampleCos sampleSin sampleBase64 sampleParsePrompt serviceUnavailable
    sampleClock sampleCwd samplePathResolve samplePathDirname noFault noFault)
    as [Himage Hprompt].
  split.
  - edestruct (Himage (js "calm ocean") (Some sampleBrainwaveData) emptyWorld)
      as [svg H].
    + vm_compute. reflexivity.
    + vm_compute. reflexivity.
    + eexists. eexists. split; [exact H | reflexivity].
  - eexists. eapply Hprompt.
    + vm_compute. reflexivity.
    + vm_compute. reflexivity.
    + vm_compute. reflexivity.
Defined.

Lemma createSeededRandom_lcg_witness :
  0 <= 42 < 2 ^ 32
  /\ fst (twoGenerators 42 3 emptyWorld)
     = Returned (map (lcgDraw 42) (seq 1 3), map (lcgDraw 42) (seq 1 3)).
Proof.
  assert (H : 0 <= 42 < 2 ^ 32) by lia.
  split; [exact H|].
  exact (proj1 (proj2 (proj2 (createSeededRandom_lcg 42 H))) 3%nat emptyWorld).
Defined.

Lemma extractThemesFromVoice_flags_witness :
  extractThemesFromVoice asciiLowerCase (Some (js "I feel so much love and peace"))
  = {| peace := true; love := true; strength := false; growth := false;
       gratitude := false |}.
Proof.
  exact (proj2 (proj2 (proj2
    (extractThemesFromVoice_flags asciiLowerCase asciiLowerCase_ascii)))).
Defined.

Lemma determineMandalaStyle_priority_witness :
  determineMandalaStyle asciiLowerCase (js "Sacred lotus") = sacred.
Proof.
  apply (proj1 (determineMandalaStyle_priority asciiLowerCase asciiLowerCase_ascii)
           (js "Sacred lotus")).
  - rewrite <- !(includes_spec). vm_compute. intros [H|H]; discriminate.
  - right. apply includes_spec. vm_compute. reflexivity.
Defined.

Lemma styleDescriptors_thresholds_witness :
  complexityLevelOf (Some sampleBrainwaveData)
  = js "highly intricate and precisely detailed with sharp geometric precision"
  /\ colorIntensityOf (Some sampleBrainwaveData)
     = js "vibrant, dynamic colors with energetic contrasts and bright highlights"
  /\ styleModifiersOf (Some (withSignalQuality sampleBrainwaveData 40))
     = styleModifiersOf (Some (withSignalQuality sampleBrainwaveData 90))
       ++ js "with subtle ethereal effects and mystical atmosphere, ".
Proof.
  pose proof (styleDescriptors_thresholds sampleBrainwaveData)
    as (H1 & _ & _ & _ & H5 & _ & _ & H8).
  split; [apply H1; vm_compute; reflexivity|].
  split; [apply H5; vm_compute; reflexivity|].
  apply H8; [vm_compute; reflexivity | vm_compute; discriminate].
Defined.

Lemma createSVGMandala_ignores_biometrics_witness :
  fst (createSVGMandala asciiLowerCase sampleFloatToString sampleCos sampleSin
         (js "blue lotus") (Some sampleBrainwaveData) emptyWorld)
  = fst (createSVGMandala asciiLowerCase sampleFloatToString sampleCos sampleSin
           (js "quiet lake") None emptyWorld).
Proof.
  apply (proj2 (proj2 (proj2
    (createSVGMandala_ignores_biometrics asciiLowerCase sampleFloatToString
       sampleCos sampleSin)))).
  vm_compute. reflexivity.
Defined.

Lemma getFallbackPrompt_short_transcript_witness :
  Forall
    (fun sentence =>
       includes
         (getFallbackPrompt asciiLowerCase
            {| voiceTranscript := Some (js "peace");
               brainwaveData := sampleBrainwaveData;
               style := Some modern; colorPalette := Some warm |})
         sentence = false)
    themeSentences.
Proof.
  apply (proj1 (getFallbackPrompt_short_transcript asciiLowerCase
                  asciiLowerCase_ascii)
           {| voiceTranscript := Some (js "peace");
              brainwaveData := sampleBrainwaveData;
              style := Some modern; colorPalette := Some warm |}
           (js "peace")).
  - reflexivity.
  - vm_compute. lia.
Defined.

Lemma createSeedFromInput_joined_witness :
  createSeedFromInput (js "a")
    (Some {| attention := 1; meditation := 23; signalQuality := 4 |})
  = createSeedFromInput (js "a")
      (Some {| attention := 12; meditation := 3; signalQuality := 4 |}).
Proof.
  apply (proj2 createSeedFromInput_joined). vm_compute. reflexivity.
Defined.


Lemma extractColorsFromPrompt_palettes_witness :
  extractColorsFromPrompt asciiLowerCase (js "Bright Sun") = vividColors.
Proof.
  apply (proj1 (extractColorsFromPrompt_palettes asciiLowerCase (js "Bright Sun"))).
  right. apply includes_spec. vm_compute. reflexivity.
Defined.

Lemma generateMandalaPrompt_first_success_witness :
  generateMandalaPrompt asciiLowerCase samplePromptField promptService
    sampleOptions emptyWorld
  = (Returned (js "a quiet mandala of dots"), afterRequest emptyWorld).
Proof.
  apply (proj1 (generateMandalaPrompt_first_success asciiLowerCase
                  samplePromptField promptService sampleOptions emptyWorld)).
  vm_compute. reflexivity.
Defined.

Lemma generateMandalaPrompt_unusable_answer_witness :
  generateMandalaPrompt asciiLowerCase sampleParsePrompt promptService
    sampleOptions emptyWorld
  = (Returned (getFallbackPrompt asciiLowerCase sampleOptions),
     afterRequest emptyWorld).
Proof.
  apply (generateMandalaPrompt_unusable_answer asciiLowerCase sampleParsePrompt
           promptService sampleOptions emptyWorld
           {| responseText := Some (js "{`prompt`: `a quiet mandala of dots`}");
              candidates := None |}
           None).
  - reflexivity.
  - reflexivity.
  - reflexivity.
Defined.

Lemma generateMandalaImage_first_success_witness :
  exists (m : GeneratedMandala) (w : World),
    generateMandalaImage asciiLowerCase sampleFloatToString sampleCos sampleSin
      sampleBase64 flakyImageService sampleClock sampleCwd samplePathResolve
      samplePathDirname noFault noFault (js "calm ocean") None emptyWorld
    = (Returned m, w)
    /\ imageUrl m = js "/attached_assets/mandala_1700000002000.png"
    /\ requests w = 2%nat /\ slept w = 2000.
Proof.
  eexists. eexists. split.
  - eapply (proj1 (proj2 (generateMandalaImage_first_success asciiLowerCase
             sampleFloatToString sampleCos sampleSin sampleBase64
             flakyImageService sampleClock sampleCwd samplePathResolve
             samplePathDirname noFault noFault (js "calm ocean") None
             emptyWorld))).
    + vm_compute. reflexivity.
    + vm_compute. reflexivity.
  - split; [vm_compute; reflexivity|]. split; reflexivity.
Defined.

Lemma generateMandalaImage_dirs_NoDup_witness :
  NoDup (dirs (snd (generateMandalaImage asciiLowerCase sampleFloatToString
                      sampleCos sampleSin sampleBase64 imageService sampleClock
                      sampleCwd samplePathResolve samplePathDirname noFault
                      noFault (js "calm ocean") None emptyWorld))).
Proof.
  apply generateMandalaImage_dirs_NoDup. apply NoDup_nil_2.
Defined.

Lemma generateMandalaImage_remote_down_witness :
  exists (svg : jsstring) (w' : World),
    generateMandalaImage asciiLowerCase sampleFloatToString sampleCos sampleSin
      sampleBase64 serviceUnavailable sampleClock sampleCwd samplePathResolve
      samplePathDirname noFault noFault (js "calm ocean") None emptyWorld
    = (Returned
         {| imageUrl := js "data:image/svg+xml;base64," ++ sampleBase64 svg;
            prompt := js "calm ocean";
            revisedPrompt :=
              Some (js "Fallback mandala generated locally with unique variations: "
                    ++ js "calm ocean") |}, w')
    /\ files w' = files emptyWorld
    /\ slept w' = slept emptyWorld + 2000
    /\ heap w' = heap emptyWorld ++ [createSeedFromInput (js "calm ocean") None].
Proof.
  apply (generateMandalaImage_remote_down asciiLowerCase sampleFloatToString
           sampleCos sampleSin sampleBase64 serviceUnavailable sampleClock
           sampleCwd samplePathResolve samplePathDirname noFault noFault
           (js "calm ocean") None emptyWorld).
  intros w0 req. exists (js "503 Service Unavailable"). reflexivity.
Defined.

Lemma processParts_text_only_witness :
  processParts noFault (js "/app/attached_assets/mandala_1.png")
    [{| text := Some (js "A mandala of dots");
        inlineData := Some {| data := Some (js "iVBORw0KGgo=") |} |}]
    (false, []) emptyWorld
  = (Returned (false, js "A mandala of dots"), emptyWorld).
Proof.
  apply (processParts_text_only noFault (js "/app/attached_assets/mandala_1.png")
           [{| text := Some (js "A mandala of dots");
               inlineData := Some {| data := Some (js "iVBORw0KGgo=") |} |}]).
  repeat constructor.
Defined.

Lemma getFallbackPrompt_theme_sentences_witness :
  contains (getFallbackPrompt asciiLowerCase sampleOptions) peaceSentence.
Proof.
  assert (Hlen : (5 < length (js "I feel calm and grateful"))%nat)
    by (vm_compute; lia).
  pose proof (getFallbackPrompt_theme_sentences asciiLowerCase sampleOptions
                (js "I feel calm and grateful") eq_refl Hlen) as H.
  cbv zeta in H. destruct H as (H & _).
  apply H. left. vm_compute. reflexivity.
Defined.

Lemma fallback_prompt_in_composer_witness :
  determineMandalaStyle asciiLowerCase (getFallbackPrompt asciiLowerCase sampleOptions)
  = dotpainting.
Proof.
  exact (proj1 (fallback_prompt_in_composer asciiLowerCase asciiLowerCase_ascii
                  sampleOptions)).
Defined.

Lemma generateMandalaImage_imageless_witness :
  exists (svg : jsstring) (w' : World),
    generateMandalaImage asciiLowerCase sampleFloatToString sampleCos sampleSin
      sampleBase64 promptService sampleClock sampleCwd samplePathResolve
      samplePathDirname noFault noFault (js "calm ocean") None emptyWorld
    = (Returned
         {| imageUrl := js "data:image/svg+xml;base64," ++ sampleBase64 svg;
            prompt := js "calm ocean";
            revisedPrompt :=
              Some (js "Fallback mandala generated locally with unique variations: "
                    ++ js "calm ocean") |}, w')
    /\ files w' = files emptyWorld
    /\ slept w' = slept emptyWorld + 2000
    /\ heap w' = heap emptyWorld ++ [createSeedFromInput (js "calm ocean") None].
Proof.
  apply (generateMandalaImage_imageless asciiLowerCase sampleFloatToString
           sampleCos sampleSin sampleBase64 promptService sampleClock
           sampleCwd samplePathResolve samplePathDirname noFault noFault
           (js "calm ocean") None emptyWorld).
  intros w0 req. eexists. split; reflexivity.
Defined.

Lemma keyword_matching_ignores_case_witness :
  determineMandalaStyle asciiLowerCase (js "SACRED Lotus")
  = determineMandalaStyle asciiLowerCase (js "sacred lotus").
Proof.
  apply (keyword_matching_ignores_case asciiLowerCase asciiLowerCase_ascii
           (js "SACRED Lotus") (js "sacred lotus")).
  - vm_compute. reflexivity.
  - vm_compute. reflexivity.
  - vm_compute. reflexivity.
Defined.
